(** * framework-elasticsearch: configuration, construction, decorators and
      pass-through operations of the Elasticsearch client wrapper.

    The development follows the three source files of the package:
    the configuration file (Config, Validate, ToOptions, Options), the
    trace file (executeWithTrace, queryWithTrace) and elasticsearch.go
    (NewElasticsearch and the document and index operations).

    Go values are embedded as follows.
    - [string] is a Rocq [string]; [[]byte] is a [list byte]; the
      conversions [[]byte(s)] and [string(b)] are [list_byte_of_string] and
      [string_of_list_byte].
    - [int], [int64] and [time.Duration] are [Z] (no arithmetic of the
      package can overflow: it only compares and subtracts clock readings).
    - a pointer that may be nil is an [option]; an [error] result is an
      [option error]; several results are a tuple, as Go returns them.
    - [interface{}] is the inductive [value]; [map[string]interface{}] is an
      [option (gmap string value)], [None] being the nil map.
    - effects (clock, HTTP exchanges, client construction, log records and
      spans) are threaded through a state monad over [World]; closing a
      response body and cancelling a context leave no trace in it. *)

From Stdlib Require Import ZArith String Ascii List DecimalString Lia.
From Stdlib.Strings Require Import Byte.
From stdpp Require Import base option gmap strings list.
Import ListNotations.

Set Warnings "-register-all".
Local Open Scope string_scope.
Local Open Scope Z_scope.

(** ** Errors *)

(** [fmt.Errorf] without a wrapping verb (and any error of a collaborator)
    is [New text]; [fmt.Errorf("prefix%w", err)] is [Wrap prefix err]. *)
Inductive error : Type :=
| New (text : string)
| Wrap (prefix : string) (cause : error).

(** The [Error()] method: the message of an error. *)
Fixpoint Error (e : error) : string :=
  match e with
  | New text => text
  | Wrap prefix cause => prefix ++ Error cause
  end.

(** [strings.Contains(s, substr)]. *)
Definition Contains (s substr : string) : bool :=
  match String.index 0 substr s with
  | Some _ => true
  | None => false
  end.

(** [fmt.Sprintf("%d", i)] for a slice index. *)
Definition itoa (i : nat) : string := NilEmpty.string_of_uint (Nat.to_uint i).

(** [time.Second], in nanoseconds. *)
Definition Second : Z := 1000000000.

(** ** Options and Config *)

Module Options.
Record t : Type := mk {
  Addresses : list string;
  Username : string;
  Password : string;
  CloudID : string;
  APIKey : string;
  EnableTLS : bool;
  CACert : string;
  DialTimeout : Z;
  ReadTimeout : Z;
  WriteTimeout : Z;
  MaxRetries : Z;
  EnableTrace : bool
}.
End Options.

Module Config.
Section WithDuration.
(** [pkgConfig.Duration] is declared in framework-config; only its
    [Duration()] method is used here. *)
Variable pkgDuration : Type.

Record t : Type := mk {
  Enabled : bool;
  Addresses : list string;
  Username : string;
  Password : string;
  CloudID : string;
  APIKey : string;
  EnableTLS : bool;
  CACert : string;
  DialTimeout : pkgDuration;
  ReadTimeout : pkgDuration;
  WriteTimeout : pkgDuration;
  MaxRetries : Z;
  EnableTrace : bool
}.
End WithDuration.
Arguments mk {pkgDuration}.
Arguments Enabled {pkgDuration}.
Arguments Addresses {pkgDuration}.
Arguments Username {pkgDuration}.
Arguments Password {pkgDuration}.
Arguments CloudID {pkgDuration}.
Arguments APIKey {pkgDuration}.
Arguments EnableTLS {pkgDuration}.
Arguments CACert {pkgDuration}.
Arguments DialTimeout {pkgDuration}.
Arguments ReadTimeout {pkgDuration}.
Arguments WriteTimeout {pkgDuration}.
Arguments MaxRetries {pkgDuration}.
Arguments EnableTrace {pkgDuration}.
End Config.

Section Configuration.
Variable pkgDuration : Type.
(** The [Duration()] method of [pkgConfig.Duration]. *)
Variable Duration : pkgDuration -> Z.

(** The loop of [Validate]: the index of the first empty address. *)
Fixpoint rangeAddresses (i : nat) (addrs : list string) : option error :=
  match addrs with
  | [] => None
  | addr :: rest =>
    if decide (addr = "")
    then Some (New ("elasticsearch addresses[" ++ itoa i ++ "] cannot be empty"))
    else rangeAddresses (S i) rest
  end.

Definition Validate (c : option (Config.t pkgDuration)) : option error :=
  match c with
  | None => Some (New "elasticsearch config cannot be nil")
  | Some c =>
    if negb (Config.Enabled c) then None
    else if (length (Config.Addresses c) =? 0)%nat
    then Some (New "elasticsearch addresses cannot be empty")
    else rangeAddresses 0 (Config.Addresses c)
  end.

(** [if d == 0 { d = 30 * time.Second }]. *)
Definition orFallback (d : Z) : Z := if d =? 0 then 30 * Second else d.

Definition ToOptions (c : option (Config.t pkgDuration))
  : option Options.t * option error :=
  match Validate c, c with
  | Some err, _ => (None, Some err)
  | None, None => (None, None) (* nil dereference; Validate rejects nil first *)
  | None, Some c =>
    if negb (Config.Enabled c)
    then (None, Some (New "elasticsearch is not enabled"))
    else
      let dialTimeout := orFallback (Duration (Config.DialTimeout c)) in
      let readTimeout := orFallback (Duration (Config.ReadTimeout c)) in
      let writeTimeout := orFallback (Duration (Config.WriteTimeout c)) in
      (Some {| Options.Addresses := Config.Addresses c;
               Options.Username := Config.Username c;
               Options.Password := Config.Password c;
               Options.CloudID := Config.CloudID c;
               Options.APIKey := Config.APIKey c;
               Options.EnableTLS := Config.EnableTLS c;
               Options.CACert := Config.CACert c;
               Options.DialTimeout := dialTimeout;
               Options.ReadTimeout := readTimeout;
               Options.WriteTimeout := writeTimeout;
               Options.MaxRetries := Config.MaxRetries c;
               Options.EnableTrace := Config.EnableTrace c |}, None)
  end.

(** The three getters; the receiver is dereferenced, so it is not nil. *)
Definition DialTimeoutDuration (c : Config.t pkgDuration) : Z :=
  Duration (Config.DialTimeout c).

Definition ReadTimeoutDuration (c : Config.t pkgDuration) : Z :=
  Duration (Config.ReadTimeout c).

Definition WriteTimeoutDuration (c : Config.t pkgDuration) : Z :=
  Duration (Config.WriteTimeout c).
End Configuration.

Arguments Validate {pkgDuration} c.
Arguments ToOptions {pkgDuration} Duration c.
Arguments DialTimeoutDuration {pkgDuration} Duration c.
Arguments ReadTimeoutDuration {pkgDuration} Duration c.
Arguments WriteTimeoutDuration {pkgDuration} Duration c.

(** ** Untyped payloads and results *)

Section Values.
(** IEEE double precision numbers are kept abstract: the package only
    stores them and converts them to and from [int64]. *)
Variable float64 : Type.

(** The dynamic types of [interface{}] the package meets: what
    [encoding/json] decodes (nil, bool, float64, string, slices, maps),
    the two raw shapes of a document body, [json.RawMessage], and
    values of any other dynamic type ([VOther], a channel for example),
    told apart by a tag. *)
Inductive value : Type :=
| VNil
| VBool (b : bool)
| VFloat64 (f : float64)
| VString (s : string)
| VBytes (b : list byte)
| VRawMessage (b : list byte)
| VSlice (l : list value)
| VMap (m : option (gmap string value))
| VOther (tag : Z).

(** [map[string]interface{}]; [None] is the nil map. *)
Definition GoMap : Type := option (gmap string value).

(** [m[key]] on a possibly nil map; a missing key reads as nil. *)
Definition mapIndex (m : GoMap) (key : string) : value :=
  match m with
  | None => VNil
  | Some entries => default VNil (entries !! key)
  end.

(** [v.(float64)] in its two-result form. *)
Definition assertFloat64 (v : value) : option float64 :=
  match v with
  | VFloat64 f => Some f
  | _ => None
  end.
End Values.

Arguments VNil {float64}.
Arguments VBool {float64} b.
Arguments VFloat64 {float64} f.
Arguments VString {float64} s.
Arguments VBytes {float64} b.
Arguments VRawMessage {float64} b.
Arguments VSlice {float64} l.
Arguments VMap {float64} m.
Arguments VOther {float64} tag.
Arguments mapIndex {float64} m key.
Arguments assertFloat64 {float64} v.

(** ** The native client library (go-elasticsearch), as far as it is used *)

(** [elasticsearch.Config]: the fields [NewElasticsearch] assigns; a field
    left alone keeps Go's zero value. *)
Module ESConfig.
Record t : Type := mk {
  Addresses : list string;
  Username : string;
  Password : string;
  CloudID : string;
  APIKey : string;
  MaxRetries : Z
}.

(** Field assignments [cfg.F = x]. *)
Definition setUsername (x : string) (cfg : t) : t :=
  mk (Addresses cfg) x (Password cfg) (CloudID cfg) (APIKey cfg) (MaxRetries cfg).
Definition setPassword (x : string) (cfg : t) : t :=
  mk (Addresses cfg) (Username cfg) x (CloudID cfg) (APIKey cfg) (MaxRetries cfg).
Definition setCloudID (x : string) (cfg : t) : t :=
  mk (Addresses cfg) (Username cfg) (Password cfg) x (APIKey cfg) (MaxRetries cfg).
Definition setAPIKey (x : string) (cfg : t) : t :=
  mk (Addresses cfg) (Username cfg) (Password cfg) (CloudID cfg) x (MaxRetries cfg).
Definition setMaxRetries (x : Z) (cfg : t) : t :=
  mk (Addresses cfg) (Username cfg) (Password cfg) (CloudID cfg) (APIKey cfg) x.
End ESConfig.

(** [*elasticsearch.Client]: the handle built from a configuration. *)
Record NativeClient : Type := { transportConfig : ESConfig.t }.

(** The request objects of [esapi], with the fields the package fills in. *)
Inductive Request : Type :=
| InfoRequest
| IndexRequest (Index DocumentID Body Refresh : string)
| GetRequest (Index DocumentID : string)
| DeleteRequest (Index DocumentID Refresh : string)
| SearchRequest (Index : list string) (Body : string)
| BulkRequest (Body Refresh : string)
| IndicesExistsRequest (Index : list string)
| UpdateRequest (Index DocumentID Body Refresh : string)
| UpdateByQueryRequest (Index : list string) (Body : string)
| CountRequest (Index : list string) (Body : option string)
| DeleteByQueryRequest (Index : list string) (Body : string).

(** [*esapi.Response]. *)
Record Response : Type := { StatusCode : Z; ResponseBody : string }.

(** [func (r *Response) IsError() bool { return r.StatusCode > 299 }]. *)
Definition IsError (res : Response) : bool := StatusCode res >? 299.

(** A span handle of the tracing collaborator. *)
Definition Span : Type := nat.

(** [context.Context]: the deadline and the span it carries. *)
Record Context : Type := { ctxDeadline : option Z; ctxSpan : option Span }.

Definition Background : Context := {| ctxDeadline := None; ctxSpan := None |}.

Inductive Code : Type := codesError | codesOk.
Inductive Level : Type := levelInfo | levelError.

(** Fields of a structured log record ([zap.String], [zap.Duration],
    [zap.Error]). *)
Inductive Field : Type :=
| zapString (key val : string)
| zapDuration (key : string) (d : Z)
| zapError (err : error).

(** [ElasticsearchClient]: the native handle (as [NewElasticsearch] sets
    it, never nil) and the trace flag. *)
Record ElasticsearchClient : Type := { client : NativeClient; EnableTrace : bool }.

(** ** A stub cluster

    Concrete collaborators, in the manner of the package's tests (an HTTP
    stub that answers every request alike): they instantiate the
    development on examples. Numbers are integers here. *)

Module Stub.
Definition cluster (status : Z) (body : string)
  : ESConfig.t -> Z -> option Z -> list Request -> Request -> Z * (error + Response) :=
  fun _ _ _ _ _ => (5, inr {| StatusCode := status; ResponseBody := body |}).

Definition accepts : ESConfig.t -> option error := fun _ => None.

Definition render (res : Response) : string := ResponseBody res.

(** Serializes what it can tell apart: raw JSON as it is, the update
    envelope around a raw document, and nothing of a foreign type. *)
Definition marshal (v : value Z) : error + list byte :=
  match v with
  | VOther _ => inl (New "json: unsupported type")
  | VRawMessage b => inr b
  | VMap (Some entries) =>
    match entries !! "doc" with
    | Some (VRawMessage b) =>
      inr (list_byte_of_string "{doc:" ++ b ++ list_byte_of_string "}")%list
    | _ => inr (list_byte_of_string "{}")
    end
  | _ => inr (list_byte_of_string "null")
  end.

(** Decodes every body to a count of 3, except a garbled one, on which it
    fails after filling in a key. *)
Definition decode (body : string) : GoMap Z * option error :=
  if decide (body = "garbled")
  then (Some {[ "took" := VFloat64 1 ]}, Some (New "unexpected EOF"))
  else (Some {[ "count" := VFloat64 3 ]}, None).

Definition native : NativeClient :=
  {| transportConfig := ESConfig.mk ["http://localhost:9200"] "" "" "" "" 3 |}.

Definition traced : ElasticsearchClient := {| client := native; EnableTrace := true |}.
End Stub.

(** A cluster that cannot be reached, and a native library that refuses
    every configuration. *)
Module Fault.
Definition unreachable
  : ESConfig.t -> Z -> option Z -> list Request -> Request -> Z * (error + Response) :=
  fun _ _ _ _ _ => (7, inl (New "connection refused")).


(** A decoder that meets the body [null]: it leaves the map nil. *)
Definition null : string -> GoMap Z * option error := fun _ => (None, None).
End Fault.

(** Sample configurations, with durations in nanoseconds: a valid one
    with no dial timeout and a negative read timeout, its translation, and
    one whose second and third addresses are empty. *)
Module Sample.
Definition config : Config.t Z :=
  Config.mk true ["http://localhost:9200"] "elastic" "secret" "" ""
    false "" 0 (-5) 7000000000 0 true.

Definition options : Options.t :=
  Options.mk ["http://localhost:9200"] "elastic" "secret" "" ""
    false "" 30000000000 (-5) 7000000000 0 true.

Definition holes : Config.t Z :=
  Config.mk true ["http://localhost:9200"; ""; ""] "" "" "" ""
    false "" 0 0 0 0 false.
End Sample.

(** ** The world: clock and effects *)

Section Client.
Variable float64 : Type.
(** [int64(f)] and [float64(n)]. *)
Variable int64_of_float64 : float64 -> Z.
Variable float64_of_int64 : Z -> float64.

Abbreviation value := (value float64).
Abbreviation GoMap := (GoMap float64).

(** Span attributes ([attribute.String], [attribute.Float64]). *)
Inductive KeyValue : Type :=
| attrString (key val : string)
| attrFloat64 (key : string) (val : float64).

(** What the package does to the outside, in the order it does it. *)
Inductive Event : Type :=
| ClientBuilt (cfg : ESConfig.t)
| Dispatched (req : Request)
| Logged (ctx : Context) (lvl : Level) (msg : string) (fields : list Field)
| SpanStarted (span : Span) (name : string) (attrs : list KeyValue)
| SpanStatus (span : Span) (code : Code) (description : string)
| SpanError (span : Span) (err : error)
| SpanAttributes (span : Span) (attrs : list KeyValue)
| SpanEnded (span : Span).

Record World : Type := { clock : Z; events : list Event }.

Definition M (A : Type) : Type := World -> A * World.
Definition ret {A} (a : A) : M A := fun w => (a, w).
Definition bind {A B} (m : M A) (k : A -> M B) : M B :=
  fun w => let (a, w') := m w in k a w'.

Notation "'let*' p ':=' c 'in' k" := (bind c (fun p => k))
  (at level 10, p pattern, c at level 100, k at level 200).
Notation "c ;; k" := (bind c (fun _ => k))
  (at level 100, right associativity).

Definition emit (e : Event) : M unit :=
  fun w => (tt, {| clock := clock w; events := events w ++ [e] |}).

(** A function body with one deferred call. *)
Definition withDefer {A} (deferred : M unit) (body : M A) : M A :=
  let* r := body in deferred ;; ret r.

(** The requests sent so far, oldest first. *)
Definition dispatched (w : World) : list Request :=
  omap (fun e => match e with Dispatched req => Some req | _ => None end)
       (events w).

(** The configurations handed to [elasticsearch.NewClient] so far. *)
Definition built (w : World) : list ESConfig.t :=
  omap (fun e => match e with ClientBuilt cfg => Some cfg | _ => None end)
       (events w).

(** *** Collaborators *)

(** [time.Now()] and [time.Since(t)]. *)
Definition Now : M Z := fun w => (clock w, w).
Definition Since (t : Z) : M Z := fun w => (clock w - t, w).

(** [d.Milliseconds()]. *)
Definition Milliseconds (d : Z) : Z := Z.quot d 1000000.

(** [context.WithTimeout(parent, d)] (the cancel function is dropped). *)
Definition WithTimeout (parent : Context) (d : Z) : M Context :=
  fun w =>
    let deadline := match ctxDeadline parent with
                    | Some t => Z.min t (clock w + d)
                    | None => clock w + d
                    end in
    ({| ctxDeadline := Some deadline; ctxSpan := ctxSpan parent |}, w).

(** The tracing collaborator records its calls; a started span gets the
    next free handle and travels in the returned context. *)
Definition spansStarted (w : World) : nat :=
  length (List.filter
            (fun e => match e with SpanStarted _ _ _ => true | _ => false end)
            (events w)).

Definition StartSpan (ctx : Context) (name : string) (attrs : list KeyValue)
  : M (Context * Span) :=
  fun w =>
    let span := spansStarted w in
    let (_, w') := emit (SpanStarted span name attrs) w in
    (({| ctxDeadline := ctxDeadline ctx; ctxSpan := Some span |}, span), w').

Definition SetStatus (span : Span) (code : Code) (description : string) : M unit :=
  emit (SpanStatus span code description).
Definition RecordError (span : Span) (err : error) : M unit :=
  emit (SpanError span err).
Definition SetAttributes (span : Span) (attrs : list KeyValue) : M unit :=
  emit (SpanAttributes span attrs).
Definition End (span : Span) : M unit := emit (SpanEnded span).

(** [log.FromContext(ctx).Error(...)] and [.Info(...)]. *)
Definition logError (ctx : Context) (msg : string) (fields : list Field) : M unit :=
  emit (Logged ctx levelError msg fields).
Definition logInfo (ctx : Context) (msg : string) (fields : list Field) : M unit :=
  emit (Logged ctx levelInfo msg fields).

(** The cluster and the network between: given the client configuration,
    the time, the deadline of the call, the requests answered before and
    the request, how long the exchange takes and how it ends. *)
Variable transport :
  ESConfig.t -> Z -> option Z -> list Request -> Request -> Z * (error + Response).

(** [req.Do(ctx, client)]: one exchange. *)
Definition Do (req : Request) (ctx : Context) (client : NativeClient)
  : M (error + Response) :=
  fun w =>
    let exchange :=
      transport (transportConfig client) (clock w) (ctxDeadline ctx)
                (dispatched w) req in
    (snd exchange, {| clock := clock w + fst exchange;
                      events := events w ++ [Dispatched req] |}).

(** [elasticsearch.NewClient(cfg)]: no exchange, but it may refuse the
    configuration. *)
Variable refuses : ESConfig.t -> option error.

Definition NewClient (cfg : ESConfig.t) : M (error + NativeClient) :=
  emit (ClientBuilt cfg) ;;
  ret (match refuses cfg with
       | Some err => inl err
       | None => inr {| transportConfig := cfg |}
       end).

(** [res.String()]. *)
Variable ResponseString : Response -> string.

(** [json.Marshal(v)]. *)
Variable Marshal : value -> error + list byte.

(** [json.NewDecoder(body).Decode(&result)] on a nil [result]: what
    [result] holds afterwards, and the error. *)
Variable Decode : string -> GoMap * option error.

(** ** The trace and log decorators *)

Definition executeWithTrace (ctx : Context) (operation index documentID : string)
    (enableTrace : bool) (handler : Context -> M (option error))
  : M (option error) :=
  let* startTime := Now in
  let* (ctx, span) :=
    (if enableTrace
     then let* (ctx, span) :=
            StartSpan ctx "elasticsearch.operation"
              [attrString "db.system" "elasticsearch";
               attrString "db.name" index;
               attrString "db.operation" operation;
               attrString "db.document_id" documentID] in
          ret (ctx, Some span)
     else ret (ctx, None)) in
  withDefer
    (match enableTrace, span with
     | true, Some span => End span
     | _, _ => ret tt
     end)
    (let* err := handler ctx in
     let* duration := Since startTime in
     match err with
     | Some e =>
       logError ctx "Elasticsearch operation failed"
         [zapString "operation" operation;
          zapString "index" index;
          zapString "document_id" documentID;
          zapDuration "duration" duration;
          zapError e] ;;
       match enableTrace, span with
       | true, Some span =>
         SetStatus span codesError (Error e) ;;
         RecordError span e ;;
         SetAttributes span
           [attrString "db.status" "error";
            attrString "db.error" (Error e)]
       | _, _ => ret tt
       end
     | None =>
       logInfo ctx "Elasticsearch operation success"
         [zapString "operation" operation;
          zapString "index" index;
          zapString "document_id" documentID;
          zapDuration "duration" duration] ;;
       match enableTrace, span with
       | true, Some span =>
         SetStatus span codesOk "" ;;
         SetAttributes span
           [attrString "db.status" "success";
            attrFloat64 "db.duration_ms"
              (float64_of_int64 (Milliseconds duration))]
       | _, _ => ret tt
       end
     end ;;
     ret err).

Definition queryWithTrace (ctx : Context) (operation index : string)
    (enableTrace : bool) (handler : Context -> M (GoMap * option error))
  : M (GoMap * option error) :=
  let* startTime := Now in
  let zero : GoMap := None in
  let* (ctx, span) :=
    (if enableTrace
     then let* (ctx, span) :=
            StartSpan ctx "elasticsearch.operation"
              [attrString "db.system" "elasticsearch";
               attrString "db.name" index;
               attrString "db.operation" operation] in
          ret (ctx, Some span)
     else ret (ctx, None)) in
  withDefer
    (match enableTrace, span with
     | true, Some span => End span
     | _, _ => ret tt
     end)
    (let* (result, err) := handler ctx in
     let* duration := Since startTime in
     match err with
     | Some err =>
       logError ctx "Elasticsearch operation failed"
         [zapString "operation" operation;
          zapString "index" index;
          zapDuration "duration" duration;
          zapError err] ;;
       match enableTrace, span with
       | true, Some span =>
         SetStatus span codesError (Error err) ;;
         RecordError span err ;;
         SetAttributes span
           [attrString "db.status" "error";
            attrString "db.error" (Error err)]
       | _, _ => ret tt
       end ;;
       ret (zero, Some err)
     | None =>
       logInfo ctx "Elasticsearch operation success"
         [zapString "operation" operation;
          zapString "index" index;
          zapDuration "duration" duration] ;;
       match enableTrace, span with
       | true, Some span =>
         SetStatus span codesOk "" ;;
         SetAttributes span
           [attrString "db.status" "success";
            attrFloat64 "db.duration_ms"
              (float64_of_int64 (Milliseconds duration))]
       | _, _ => ret tt
       end ;;
       ret (result, None)
     end).

(** ** Construction *)

(** The configuration of the native client (the part of [NewElasticsearch]
    between the two checks and the call of [elasticsearch.NewClient]). *)
Definition nativeConfig (opts : Options.t) : ESConfig.t :=
  let cfg := {| ESConfig.Addresses := Options.Addresses opts;
                ESConfig.Username := ""; ESConfig.Password := "";
                ESConfig.CloudID := ""; ESConfig.APIKey := "";
                ESConfig.MaxRetries := 0 |} in
  let cfg :=
    if bool_decide (Options.Username opts <> "")
       && bool_decide (Options.Password opts <> "")
    then ESConfig.setPassword (Options.Password opts)
           (ESConfig.setUsername (Options.Username opts) cfg)
    else if bool_decide (Options.APIKey opts <> "")
    then ESConfig.setAPIKey (Options.APIKey opts) cfg
    else cfg in
  let cfg :=
    if bool_decide (Options.CloudID opts <> "")
    then ESConfig.setCloudID (Options.CloudID opts) cfg
    else cfg in
  let cfg :=
    if Options.MaxRetries opts >? 0
    then ESConfig.setMaxRetries (Options.MaxRetries opts) cfg
    else ESConfig.setMaxRetries 3 cfg in
  cfg.

Definition NewElasticsearch (opts : option Options.t)
  : M (option ElasticsearchClient * option error) :=
  match opts with
  | None => ret (None, Some (New "elasticsearch options cannot be nil"))
  | Some opts =>
    if (length (Options.Addresses opts) =? 0)%nat
    then ret (None, Some (New "elasticsearch addresses cannot be empty"))
    else
      let cfg := nativeConfig opts in
      let* built := NewClient cfg in
      match built with
      | inl err =>
        ret (None, Some (Wrap "failed to create elasticsearch client: " err))
      | inr client =>
        let* ctx := WithTimeout Background (Options.DialTimeout opts) in
        let* probe := Do InfoRequest ctx client in
        match probe with
        | inl err =>
          ret (None, Some (Wrap "failed to connect to elasticsearch: " err))
        | inr res =>
          if IsError res
          then ret (None, Some (New ("elasticsearch info error: "
                                     ++ ResponseString res)))
          else ret (Some {| client := client;
                            EnableTrace := Options.EnableTrace opts |}, None)
        end
      end
  end.

(** ** Document operations *)

Definition index (c : ElasticsearchClient) (ctx : Context)
    (index documentID : string) (body : value) : M (option error) :=
  match
    match body with
    | VString v => inr (list_byte_of_string v)
    | VBytes v => inr v
    | _ =>
      match Marshal body with
      | inl err => inl (Wrap "failed to marshal document: " err)
      | inr bodyBytes => inr bodyBytes
      end
    end
  with
  | inl err => ret (Some err)
  | inr bodyBytes =>
    let req := IndexRequest index documentID (string_of_list_byte bodyBytes) "true" in
    let* done := Do req ctx (client c) in
    match done with
    | inl err => ret (Some (Wrap "failed to index document: " err))
    | inr res =>
      if IsError res
      then ret (Some (New ("elasticsearch index error: " ++ ResponseString res)))
      else ret None
    end
  end.

Definition Index (c : ElasticsearchClient) (ctx : Context)
    (index_ documentID : string) (body : value) : M (option error) :=
  executeWithTrace ctx "index" index_ documentID (EnableTrace c)
    (fun ctx => index c ctx index_ documentID body).

Definition get (c : ElasticsearchClient) (ctx : Context)
    (index documentID : string) : M (GoMap * option error) :=
  let req := GetRequest index documentID in
  let* done := Do req ctx (client c) in
  match done with
  | inl err => ret (None, Some (Wrap "failed to get document: " err))
  | inr res =>
    if IsError res
    then
      if StatusCode res =? 404
      then ret (None, Some (New "document not found"))
      else ret (None, Some (New ("elasticsearch get error: " ++ ResponseString res)))
    else
      let (result, failure) := Decode (ResponseBody res) in
      match failure with
      | Some err => ret (None, Some (Wrap "failed to decode response: " err))
      | None => ret (result, None)
      end
  end.

Definition Get (c : ElasticsearchClient) (ctx : Context)
    (index documentID : string) : M (GoMap * option error) :=
  queryWithTrace ctx "get" index (EnableTrace c)
    (fun ctx => get c ctx index documentID).

Definition delete (c : ElasticsearchClient) (ctx : Context)
    (index documentID : string) : M (option error) :=
  let req := DeleteRequest index documentID "true" in
  let* done := Do req ctx (client c) in
  match done with
  | inl err => ret (Some (Wrap "failed to delete document: " err))
  | inr res =>
    if IsError res
    then
      if StatusCode res =? 404
      then ret (Some (New "document not found"))
      else ret (Some (New ("elasticsearch delete error: " ++ ResponseString res)))
    else ret None
  end.

Definition Delete (c : ElasticsearchClient) (ctx : Context)
    (index documentID : string) : M (option error) :=
  executeWithTrace ctx "delete" index documentID (EnableTrace c)
    (fun ctx => delete c ctx index documentID).

Definition executeQueryRequest (c : ElasticsearchClient) (ctx : Context)
    (index : string) (query : GoMap)
    (reqFunc : list string -> string -> Request) (operation : string)
  : M (GoMap * option error) :=
  match Marshal (VMap query) with
  | inl err => ret (None, Some (Wrap "failed to marshal query: " err))
  | inr queryBytes =>
    let req := reqFunc [index] (string_of_list_byte queryBytes) in
    let* done := Do req ctx (client c) in
    match done with
    | inl err => ret (None, Some (Wrap ("failed to " ++ operation ++ ": ") err))
    | inr res =>
      if IsError res
      then ret (None, Some (New ("elasticsearch " ++ operation ++ " error: "
                                 ++ ResponseString res)))
      else
        let (result, failure) := Decode (ResponseBody res) in
        match failure with
        | Some err => ret (None, Some (Wrap "failed to decode response: " err))
        | None => ret (result, None)
        end
    end
  end.

Definition search (c : ElasticsearchClient) (ctx : Context)
    (index : string) (query : GoMap) : M (GoMap * option error) :=
  executeQueryRequest c ctx index query
    (fun indices body => SearchRequest indices body) "search".

Definition Search (c : ElasticsearchClient) (ctx : Context)
    (index : string) (query : GoMap) : M (GoMap * option error) :=
  queryWithTrace ctx "search" index (EnableTrace c)
    (fun ctx => search c ctx index query).

Definition bulk (c : ElasticsearchClient) (ctx : Context) (body : string)
  : M (option error) :=
  let req := BulkRequest body "true" in
  let* done := Do req ctx (client c) in
  match done with
  | inl err => ret (Some (Wrap "failed to bulk: " err))
  | inr res =>
    if IsError res
    then ret (Some (New ("elasticsearch bulk error: " ++ ResponseString res)))
    else ret None
  end.

Definition Bulk (c : ElasticsearchClient) (ctx : Context) (body : string)
  : M (option error) :=
  executeWithTrace ctx "bulk" "" "" (EnableTrace c)
    (fun ctx => bulk c ctx body).

(** ** Index existence, update, count and the by-query operations *)

Definition ExistsIndex (c : ElasticsearchClient) (ctx : Context) (index : string)
  : M (bool * option error) :=
  let req := IndicesExistsRequest [index] in
  let* done := Do req ctx (client c) in
  match done with
  | inl err => ret (false, Some (Wrap "failed to check index: " err))
  | inr res =>
    if StatusCode res =? 404
    then ret (false, None)
    else if IsError res
    then ret (false, Some (New ("elasticsearch exists index error: "
                                ++ ResponseString res)))
    else ret (true, None)
  end.

Definition Update (c : ElasticsearchClient) (ctx : Context)
    (index documentID : string) (body : value) : M (option error) :=
  match
    match body with
    | VString v => inr (list_byte_of_string v)
    | VBytes v => inr v
    | _ =>
      match Marshal body with
      | inl err => inl (Wrap "failed to marshal document: " err)
      | inr bodyBytes => inr bodyBytes
      end
    end
  with
  | inl err => ret (Some err)
  | inr bodyBytes =>
    let updateBody : GoMap := Some {[ "doc" := VRawMessage bodyBytes ]} in
    match Marshal (VMap updateBody) with
    | inl err => ret (Some (Wrap "failed to marshal update body: " err))
    | inr updateBodyBytes =>
      let req := UpdateRequest index documentID
                   (string_of_list_byte updateBodyBytes) "true" in
      let* done := Do req ctx (client c) in
      match done with
      | inl err => ret (Some (Wrap "failed to update document: " err))
      | inr res =>
        if IsError res
        then
          if StatusCode res =? 404
          then ret (Some (New "document not found"))
          else ret (Some (New ("elasticsearch update error: "
                               ++ ResponseString res)))
        else ret None
      end
    end
  end.

Definition UpdateByQuery (c : ElasticsearchClient) (ctx : Context)
    (index : string) (query script : GoMap) : M (GoMap * option error) :=
  let updateQuery : gmap string value := {[ "query" := VMap query ]} in
  let updateQuery :=
    match script with
    | Some _ => <[ "script" := VMap script ]> updateQuery
    | None => updateQuery
    end in
  match Marshal (VMap (Some updateQuery)) with
  | inl err => ret (None, Some (Wrap "failed to marshal update query: " err))
  | inr queryBytes =>
    let req := UpdateByQueryRequest [index] (string_of_list_byte queryBytes) in
    let* done := Do req ctx (client c) in
    match done with
    | inl err => ret (None, Some (Wrap "failed to update by query: " err))
    | inr res =>
      if IsError res
      then ret (None, Some (New ("elasticsearch update by query error: "
                                 ++ ResponseString res)))
      else
        let (result, failure) := Decode (ResponseBody res) in
        match failure with
        | Some err => ret (None, Some (Wrap "failed to decode response: " err))
        | None => ret (result, None)
        end
    end
  end.

Definition Count (c : ElasticsearchClient) (ctx : Context)
    (index : string) (query : GoMap) : M (Z * option error) :=
  match
    match query with
    | Some _ =>
      match Marshal (VMap query) with
      | inl err => inl (Wrap "failed to marshal query: " err)
      | inr queryBytes => inr queryBytes
      end
    | None => inr []
    end
  with
  | inl err => ret (0, Some err)
  | inr queryBytes =>
    let req := CountRequest [index]
                 (if (0 <? length queryBytes)%nat
                  then Some (string_of_list_byte queryBytes)
                  else None) in
    let* done := Do req ctx (client c) in
    match done with
    | inl err => ret (0, Some (Wrap "failed to count: " err))
    | inr res =>
      if IsError res
      then ret (0, Some (New ("elasticsearch count error: " ++ ResponseString res)))
      else
        let (result, failure) := Decode (ResponseBody res) in
        match failure with
        | Some err => ret (0, Some (Wrap "failed to decode response: " err))
        | None =>
          match assertFloat64 (mapIndex result "count") with
          | Some count => ret (int64_of_float64 count, None)
          | None => ret (0, Some (New "invalid count response format"))
          end
        end
    end
  end.

Definition DeleteByQuery (c : ElasticsearchClient) (ctx : Context)
    (index : string) (query : GoMap) : M (GoMap * option error) :=
  executeQueryRequest c ctx index query
    (fun indices body => DeleteByQueryRequest indices body) "delete by query".

(** ** Observations on a world *)

(** How the cluster answers [req] when it is sent from world [w]. *)
Definition answer (client : NativeClient) (ctx : Context) (w : World)
    (req : Request) : error + Response :=
  snd (transport (transportConfig client) (clock w) (ctxDeadline ctx)
                 (dispatched w) req).

(** What the cluster can tell of a world: the time and the requests it
    has received. Log records and spans are not part of it. *)
Definition network (w : World) : Z * list Request := (clock w, dispatched w).

(** A payload that is neither a string nor a byte slice. *)
Definition structured (body : value) : bool :=
  match body with
  | VString _ | VBytes _ => false
  | _ => true
  end.

(** The context and the world in which a decorator runs its handler:
    with tracing, the span has been started and travels in the context. *)
Definition entered (enableTrace : bool) (ctx : Context) (attrs : list KeyValue)
    (w : World) : Context * World :=
  if enableTrace
  then ({| ctxDeadline := ctxDeadline ctx; ctxSpan := Some (spansStarted w) |},
        {| clock := clock w;
           events := events w
                     ++ [SpanStarted (spansStarted w) "elasticsearch.operation" attrs] |})
  else (ctx, w).

(** A unit of work whose outcome and whose effect on the network depend on
    the deadline and on the network side of the world only. *)
Definition networkOnly {A} (handler : Context -> M A) : Prop :=
  ∀ ctx1 ctx2 w1 w2,
    ctxDeadline ctx1 = ctxDeadline ctx2 -> network w1 = network w2 ->
    fst (handler ctx1 w1) = fst (handler ctx2 w2)
    ∧ network (snd (handler ctx1 w1)) = network (snd (handler ctx2 w2)).

(** Running [op] from [w] sends exactly one request, which the cluster
    answers with the response [res]. *)
Definition received {A} (op : M A) (w : World) (client : NativeClient)
    (ctx : Context) (res : Response) : Prop :=
  ∃ req, dispatched (snd (op w)) = (dispatched w ++ [req])%list
         ∧ answer client ctx w req = inr res.

(** The span attributes the two decorators start their span with. *)
Definition operationAttrs (operation index documentID : string) : list KeyValue :=
  [attrString "db.system" "elasticsearch";
   attrString "db.name" index;
   attrString "db.operation" operation;
   attrString "db.document_id" documentID].

Definition queryAttrs (operation index : string) : list KeyValue :=
  [attrString "db.system" "elasticsearch";
   attrString "db.name" index;
   attrString "db.operation" operation].

(** The bytes Index and Update take for a body, or the error of
    json.Marshal wrapped as they wrap it. *)
Definition bodyBytes (body : value) : error + list byte :=
  match body with
  | VString v => inr (list_byte_of_string v)
  | VBytes v => inr v
  | _ =>
    match Marshal body with
    | inl err => inl (Wrap "failed to marshal document: " err)
    | inr bytes => inr bytes
    end
  end.

(** Running [op] from [w] sends exactly one request, and the exchange
    fails with [err]. *)
Definition failed {A} (op : M A) (w : World) (client : NativeClient)
    (ctx : Context) (err : error) : Prop :=
  ∃ req, dispatched (snd (op w)) = (dispatched w ++ [req])%list
         ∧ answer client ctx w req = inl err.

(** From [w] to [w'] nothing happened but at most one exchange. *)
Definition onlyDispatches (w w' : World) : Prop :=
  ∃ reqs, (length reqs <= 1)%nat
          ∧ events w' = (events w ++ map Dispatched reqs)%list.


(** The log records written so far, oldest first: level, message, fields. *)
Definition logged (w : World) : list (Level * string * list Field) :=
  omap (fun e => match e with
                 | Logged _ lvl msg fields => Some (lvl, msg, fields)
                 | _ => None
                 end)
       (events w).

(** * Properties *)

(** ** The monad and the transport *)

Ltac run :=
  unfold withDefer, SetStatus, RecordError, SetAttributes, End, logError, logInfo,
    Now, Since, StartSpan, WithTimeout, NewClient, bind, ret, emit in *;
  simpl in *.

Lemma dispatched_app w (es : list Event) :
  dispatched {| clock := clock w; events := events w ++ es |}
  = (dispatched w
     ++ omap (fun e => match e with Dispatched req => Some req | _ => None end) es)%list.
Proof. unfold dispatched. simpl. by rewrite omap_app. Qed.

Lemma Do_fst req ctx cl w : fst (Do req ctx cl w) = answer cl ctx w req.
Proof. reflexivity. Qed.

Lemma Do_dispatched req ctx cl w :
  dispatched (snd (Do req ctx cl w)) = (dispatched w ++ [req])%list.
Proof. unfold Do, dispatched. simpl. by rewrite omap_app. Qed.

Lemma Do_built req ctx cl w : built (snd (Do req ctx cl w)) = built w.
Proof. unfold Do, built. simpl. rewrite omap_app. simpl. by rewrite app_nil_r. Qed.

(** The transport sees the deadline of the context and the network side
    of the world, nothing else. *)
Lemma Do_network req ctx1 ctx2 cl w1 w2 :
  ctxDeadline ctx1 = ctxDeadline ctx2 -> network w1 = network w2 ->
  fst (Do req ctx1 cl w1) = fst (Do req ctx2 cl w2)
  ∧ network (snd (Do req ctx1 cl w1)) = network (snd (Do req ctx2 cl w2)).
Proof.
  intros Hd Hn. injection Hn as Hc Hr.
  unfold Do, network. simpl. rewrite Hd, Hc, Hr. split; [done|].
  f_equal. unfold dispatched in *. simpl. by rewrite !omap_app, Hr.
Qed.

Lemma network_emit e w :
  (∀ req, e ≠ Dispatched req) -> network (snd (emit e w)) = network w.
Proof.
  intros He. unfold network, emit, dispatched. simpl. rewrite omap_app. simpl.
  destruct e; try (by rewrite app_nil_r). by destruct (He req).
Qed.

Lemma entered_deadline en ctx attrs w :
  ctxDeadline (fst (entered en ctx attrs w)) = ctxDeadline ctx.
Proof. by destruct en. Qed.

Lemma entered_network en ctx attrs w :
  network (snd (entered en ctx attrs w)) = network w.
Proof.
  destruct en; [|done]. unfold entered. simpl.
  apply (network_emit (SpanStarted _ _ _)). congruence.
Qed.

(** ** The decorators *)

Ltac quiet :=
  unfold network, dispatched, built; simpl;
  rewrite ?omap_app; simpl; rewrite ?app_nil_r; try reflexivity.

Lemma executeWithTrace_handler ctx operation index documentID en handler w :
  let at_entry := entered en ctx (operationAttrs operation index documentID) w in
  fst (executeWithTrace ctx operation index documentID en handler w)
  = fst (handler (fst at_entry) (snd at_entry))
  ∧ network (snd (executeWithTrace ctx operation index documentID en handler w))
    = network (snd (handler (fst at_entry) (snd at_entry))).
Proof.
  unfold executeWithTrace, entered, operationAttrs. run.
  destruct en; simpl;
    match goal with |- context [handler ?c ?v] => destruct (handler c v) as [[err|] w'] end;
    simpl; split; try reflexivity; quiet.
Qed.

Lemma queryWithTrace_handler ctx operation index en handler w :
  let at_entry := entered en ctx (queryAttrs operation index) w in
  fst (queryWithTrace ctx operation index en handler w)
  = (match snd (fst (handler (fst at_entry) (snd at_entry))) with
     | Some _ => None
     | None => fst (fst (handler (fst at_entry) (snd at_entry)))
     end,
     snd (fst (handler (fst at_entry) (snd at_entry))))
  ∧ network (snd (queryWithTrace ctx operation index en handler w))
    = network (snd (handler (fst at_entry) (snd at_entry))).
Proof.
  unfold queryWithTrace, entered, queryAttrs. run.
  destruct en; simpl;
    match goal with |- context [handler ?c ?v] => destruct (handler c v) as [[result [err|]] w'] end;
    simpl; split; try reflexivity; quiet.
Qed.

(** A unit of work that only talks to the cluster gives the decorated call
    the result, and the network the effects, of the bare call. *)
Lemma executeWithTrace_networkOnly ctx operation index documentID en handler w :
  networkOnly handler ->
  fst (executeWithTrace ctx operation index documentID en handler w)
  = fst (handler ctx w)
  ∧ network (snd (executeWithTrace ctx operation index documentID en handler w))
    = network (snd (handler ctx w)).
Proof.
  intros Hh.
  destruct (executeWithTrace_handler ctx operation index documentID en handler w)
    as [Hres Hnet].
  cbv zeta in Hres, Hnet. rewrite Hres, Hnet. apply Hh; [apply entered_deadline | apply entered_network].
Qed.

Lemma queryWithTrace_networkOnly ctx operation index en handler w :
  networkOnly handler ->
  (∀ c v, snd (fst (handler c v)) ≠ None -> fst (fst (handler c v)) = None) ->
  fst (queryWithTrace ctx operation index en handler w) = fst (handler ctx w)
  ∧ network (snd (queryWithTrace ctx operation index en handler w))
    = network (snd (handler ctx w)).
Proof.
  intros Hh Hnil.
  destruct (queryWithTrace_handler ctx operation index en handler w) as [Hres Hnet].
  cbv zeta in Hres, Hnet. rewrite Hres, Hnet.
  destruct (Hh (fst (entered en ctx (queryAttrs operation index) w)) ctx
               (snd (entered en ctx (queryAttrs operation index) w)) w) as [Hf Hn];
    [apply entered_deadline | apply entered_network |].
  split; [|done]. specialize (Hnil ctx w).
  destruct (handler (fst _) (snd _)) as [[result1 err1] v1],
           (handler ctx w) as [[result err] v]; simpl in *.
  injection Hf as -> ->. destruct err as [e|]; [|done]. by rewrite Hnil.
Qed.

(** ** The operations talk to the cluster only *)

Ltac exchange Hd Hn :=
  unfold bind;
  match goal with
  | |- context [Do ?req ?ctx1 ?cl ?w1] =>
    match goal with
    | |- context [Do req ?ctx2 cl ?w2] =>
      lazymatch ctx2 with ctx1 => fail | _ => idtac end;
      let Ho := fresh "Ho" in
      let Hw := fresh "Hw" in
      destruct (Do_network req ctx1 ctx2 cl w1 w2 Hd Hn) as [Ho Hw];
      destruct (Do req ctx1 cl w1) as [? ?], (Do req ctx2 cl w2) as [? ?];
      simpl in Ho, Hw; subst
    end
  end.

Lemma index_networkOnly c index_ documentID body :
  networkOnly (fun ctx => index c ctx index_ documentID body).
Proof.
  intros ctx1 ctx2 w1 w2 Hd Hn. unfold index.
  match goal with |- context [match ?n with inl _ => _ | inr _ => _ end] =>
    destruct n as [err|bodyBytes] end; [done|].
  exchange Hd Hn. unfold ret. repeat case_match; done.
Qed.

Lemma get_networkOnly c index documentID :
  networkOnly (fun ctx => get c ctx index documentID).
Proof.
  intros ctx1 ctx2 w1 w2 Hd Hn. unfold get.
  exchange Hd Hn. unfold ret. repeat case_match; done.
Qed.

Lemma delete_networkOnly c index documentID :
  networkOnly (fun ctx => delete c ctx index documentID).
Proof.
  intros ctx1 ctx2 w1 w2 Hd Hn. unfold delete.
  exchange Hd Hn. unfold ret. repeat case_match; done.
Qed.

Lemma executeQueryRequest_networkOnly c index query reqFunc operation :
  networkOnly (fun ctx => executeQueryRequest c ctx index query reqFunc operation).
Proof.
  intros ctx1 ctx2 w1 w2 Hd Hn. unfold executeQueryRequest.
  destruct (Marshal _) as [err|queryBytes]; [done|].
  exchange Hd Hn. unfold ret. repeat case_match; done.
Qed.

Lemma bulk_networkOnly c body : networkOnly (fun ctx => bulk c ctx body).
Proof.
  intros ctx1 ctx2 w1 w2 Hd Hn. unfold bulk.
  exchange Hd Hn. unfold ret. repeat case_match; done.
Qed.

(** ** No result map beside an error *)

Lemma get_nil_on_error c ctx index documentID w :
  snd (fst (get c ctx index documentID w)) ≠ None ->
  fst (fst (get c ctx index documentID w)) = None.
Proof.
  unfold get, bind, ret. destruct (Do _ _ _ _) as [[err|res] w']; simpl; [done|].
  repeat case_match; simpl; done.
Qed.

Lemma executeQueryRequest_nil_on_error c ctx index query reqFunc operation w :
  snd (fst (executeQueryRequest c ctx index query reqFunc operation w)) ≠ None ->
  fst (fst (executeQueryRequest c ctx index query reqFunc operation w)) = None.
Proof.
  unfold executeQueryRequest, bind, ret.
  destruct (Marshal _) as [err|queryBytes]; [done|].
  destruct (Do _ _ _ _) as [[err|res] w']; simpl; [done|].
  repeat case_match; simpl; done.
Qed.

Lemma UpdateByQuery_nil_on_error c ctx index query script w :
  snd (fst (UpdateByQuery c ctx index query script w)) ≠ None ->
  fst (fst (UpdateByQuery c ctx index query script w)) = None.
Proof.
  unfold UpdateByQuery, bind, ret.
  destruct (Marshal _) as [err|queryBytes]; [done|].
  destruct (Do _ _ _ _) as [[err|res] w']; simpl; [done|].
  repeat case_match; simpl; done.
Qed.

Lemma queryWithTrace_nil_on_error ctx operation index en handler w :
  snd (fst (queryWithTrace ctx operation index en handler w)) ≠ None ->
  fst (fst (queryWithTrace ctx operation index en handler w)) = None.
Proof.
  destruct (queryWithTrace_handler ctx operation index en handler w) as [-> _].
  simpl. by destruct (snd (fst _)).
Qed.

(** C9. Whenever Get, Search, UpdateByQuery or DeleteByQuery returns a non-nil
    error, the result map returned with it is the nil map: this holds
    whatever the decoder left in the map before it failed. *)
Theorem no_result_map_with_error c ctx index documentID query script w :
  (snd (fst (Get c ctx index documentID w)) ≠ None ->
   fst (fst (Get c ctx index documentID w)) = None)
  ∧ (snd (fst (Search c ctx index query w)) ≠ None ->
     fst (fst (Search c ctx index query w)) = None)
  ∧ (snd (fst (UpdateByQuery c ctx index query script w)) ≠ None ->
     fst (fst (UpdateByQuery c ctx index query script w)) = None)
  ∧ (snd (fst (DeleteByQuery c ctx index query w)) ≠ None ->
     fst (fst (DeleteByQuery c ctx index query w)) = None).
Proof.
  split_and!.
  - apply queryWithTrace_nil_on_error.
  - apply queryWithTrace_nil_on_error.
  - apply UpdateByQuery_nil_on_error.
  - apply executeQueryRequest_nil_on_error.
Qed.

(** ** Decorated operations against bare ones *)

Lemma Index_as_index c ctx index_ documentID body w :
  fst (Index c ctx index_ documentID body w) = fst (index c ctx index_ documentID body w)
  ∧ network (snd (Index c ctx index_ documentID body w))
    = network (snd (index c ctx index_ documentID body w)).
Proof. apply executeWithTrace_networkOnly, index_networkOnly. Qed.

Lemma Delete_as_delete c ctx index documentID w :
  fst (Delete c ctx index documentID w) = fst (delete c ctx index documentID w)
  ∧ network (snd (Delete c ctx index documentID w))
    = network (snd (delete c ctx index documentID w)).
Proof. apply executeWithTrace_networkOnly, delete_networkOnly. Qed.

Lemma Bulk_as_bulk c ctx body w :
  fst (Bulk c ctx body w) = fst (bulk c ctx body w)
  ∧ network (snd (Bulk c ctx body w)) = network (snd (bulk c ctx body w)).
Proof. apply executeWithTrace_networkOnly, bulk_networkOnly. Qed.

Lemma Get_as_get c ctx index documentID w :
  fst (Get c ctx index documentID w) = fst (get c ctx index documentID w)
  ∧ network (snd (Get c ctx index documentID w))
    = network (snd (get c ctx index documentID w)).
Proof.
  apply queryWithTrace_networkOnly; [apply get_networkOnly|].
  intros; by apply get_nil_on_error.
Qed.

Lemma Search_as_search c ctx index query w :
  fst (Search c ctx index query w) = fst (search c ctx index query w)
  ∧ network (snd (Search c ctx index query w))
    = network (snd (search c ctx index query w)).
Proof.
  apply queryWithTrace_networkOnly; [apply executeQueryRequest_networkOnly|].
  intros; by apply executeQueryRequest_nil_on_error.
Qed.

Lemma network_dispatched w1 w2 : network w1 = network w2 -> dispatched w1 = dispatched w2.
Proof. by intros [= _ ?]. Qed.

(** ** Bulk *)

Lemma bulk_dispatched c ctx body w :
  dispatched (snd (bulk c ctx body w)) = (dispatched w ++ [BulkRequest body "true"])%list.
Proof.
  unfold bulk, bind, ret. rewrite <- (Do_dispatched _ ctx (client c)).
  destruct (Do _ _ _ _) as [[err|res] w']; simpl; [done|]. by case_match.
Qed.

(** ** ExistsIndex *)

(** C1. ExistsIndex maps the status of the response: 404 gives (false, nil),
    a 2xx status gives (true, nil), every other status above 299 gives false
    with a non-nil error. A 404 response is an error response for IsError,
    so the 404 test comes first. *)
Theorem ExistsIndex_by_status c ctx index w res :
  answer (client c) ctx w (IndicesExistsRequest [index]) = inr res ->
  (StatusCode res = 404 ->
     IsError res = true ∧ fst (ExistsIndex c ctx index w) = (false, None))
  ∧ (200 <= StatusCode res <= 299 ->
     fst (ExistsIndex c ctx index w) = (true, None))
  ∧ (299 < StatusCode res -> StatusCode res ≠ 404 ->
     fst (ExistsIndex c ctx index w)
     = (false, Some (New ("elasticsearch exists index error: " ++ ResponseString res)))).
Proof.
  intros Hres. unfold ExistsIndex, bind, ret.
  pose proof (Do_fst (IndicesExistsRequest [index]) ctx (client c) w) as Hdo.
  rewrite Hres in Hdo. destruct (Do _ _ _ _) as [outcome w']. simpl in Hdo. subst outcome.
  unfold IsError. split_and!.
  - intros ->. split; [reflexivity|]. by rewrite Z.eqb_refl.
  - intros [Hlo Hhi].
    destruct (Z.eqb_spec (StatusCode res) 404) as [E|_]; [lia|].
    destruct (Z.gtb_spec (StatusCode res) 299); [lia|done].
  - intros Hhi Hne.
    destruct (Z.eqb_spec (StatusCode res) 404) as [E|_]; [done|].
    destruct (Z.gtb_spec (StatusCode res) 299); [done|lia].
Qed.

(** ** Document not found *)

Lemma received_request {A} (op : M A) w cl ctx res req :
  dispatched (snd (op w)) = (dispatched w ++ [req])%list ->
  received op w cl ctx res -> answer cl ctx w req = inr res.
Proof.
  intros Hop (req' & Hsent & Hans). rewrite Hop in Hsent.
  apply app_inv_head in Hsent. by injection Hsent as ->.
Qed.

Lemma not_received {A} (op : M A) w cl ctx res :
  dispatched (snd (op w)) = dispatched w -> ¬ received op w cl ctx res.
Proof.
  intros Hop (req & Hsent & _). rewrite Hop in Hsent.
  apply (f_equal length) in Hsent. rewrite length_app in Hsent. simpl in Hsent. lia.
Qed.


Lemma delete_dispatched c ctx index documentID w :
  dispatched (snd (delete c ctx index documentID w))
  = (dispatched w ++ [DeleteRequest index documentID "true"])%list.
Proof.
  unfold delete, bind, ret. rewrite <- (Do_dispatched _ ctx (client c)).
  destruct (Do _ _ _ _) as [[err|res] w']; simpl; [done|]. by repeat case_match.
Qed.






(** ** Count *)

Lemma Count_decoded c ctx index query w res m :
  received (Count c ctx index query) w (client c) ctx res ->
  IsError res = false ->
  Decode (ResponseBody res) = (m, None) ->
  fst (Count c ctx index query w)
  = match assertFloat64 (mapIndex m "count") with
    | Some count => (int64_of_float64 count, None)
    | None => (0, Some (New "invalid count response format"))
    end.
Proof.
  intros Hrec Hok Hdec. revert Hrec. unfold Count.
  match goal with |- context [match ?n with inl _ => _ | inr _ => _ end] =>
    destruct n as [err|queryBytes] end.
  { intros Hrec. by apply not_received in Hrec. }
  intros Hrec.
  apply (received_request _ _ _ _ _
           (CountRequest [index]
              (if (0 <? length queryBytes)%nat
               then Some (string_of_list_byte queryBytes) else None)))
    in Hrec; cycle 1.
  { unfold bind, ret. rewrite <- (Do_dispatched _ ctx (client c)).
    destruct (Do _ _ _ _) as [[err|res'] w']; simpl; [done|]. by repeat case_match. }
  unfold bind, ret. rewrite <- Do_fst in Hrec.
  destruct (Do _ _ _ _) as [outcome w']. simpl in Hrec. subst outcome.
  rewrite Hok, Hdec. by case_match.
Qed.

Lemma count_format_message_apart (prefix detail : string) :
  "invalid count response format" ≠ "failed to " ++ prefix ++ detail
  ∧ "invalid count response format" ≠ "elasticsearch " ++ prefix ++ detail.
Proof. cbv [String.append]. split; congruence. Qed.

(** C8. When the response body of Count decodes, Count returns the [count]
    field converted to an integer if the field holds a number; if the
    field is absent (or the decoded map is nil) or holds anything else it
    returns 0 with the error "invalid count response format", whose
    message differs from that of a transport error and of a decode error. *)
Theorem Count_reads_count_field c ctx index query w res m :
  received (Count c ctx index query) w (client c) ctx res ->
  IsError res = false ->
  Decode (ResponseBody res) = (m, None) ->
  (∀ entries count,
     m = Some entries -> entries !! "count" = Some (VFloat64 count) ->
     fst (Count c ctx index query w) = (int64_of_float64 count, None))
  ∧ (m = None ∨ (∃ entries, m = Some entries ∧ entries !! "count" = None) ->
     fst (Count c ctx index query w)
     = (0, Some (New "invalid count response format")))
  ∧ (∀ entries v,
       m = Some entries -> entries !! "count" = Some v ->
       (∀ count, v ≠ VFloat64 count) ->
     fst (Count c ctx index query w)
     = (0, Some (New "invalid count response format")))
  ∧ (∀ cause,
       Error (New "invalid count response format")
       ≠ Error (Wrap "failed to count: " cause)
       ∧ Error (New "invalid count response format")
         ≠ Error (Wrap "failed to decode response: " cause)).
Proof.
  intros Hrec Hok Hdec. rewrite (Count_decoded _ _ _ _ _ _ _ Hrec Hok Hdec).
  unfold mapIndex. split_and!.
  - intros entries count -> Hm. by rewrite Hm.
  - intros [->|(entries & -> & Hm)]; [done|]. by rewrite Hm.
  - intros entries v -> Hm Hv. rewrite Hm. simpl.
    destruct v; try done. by destruct (Hv f).
  - intros cause. simpl. split.
    + apply (count_format_message_apart "count: " (Error cause)).
    + apply (count_format_message_apart "decode response: " (Error cause)).
Qed.

(** ** Construction *)

(** C5. NewElasticsearch with nil options, and with options whose address
    list is empty, returns no client and an error whose message contains
    "cannot be nil", respectively "cannot be empty"; the world is left as it
    was: no client has been built and no request sent, the probe included. *)
Theorem NewElasticsearch_rejects_early w :
  (∃ err, NewElasticsearch None w = ((None, Some err), w)
          ∧ Contains (Error err) "cannot be nil" = true)
  ∧ (∀ opts, Options.Addresses opts = [] ->
       ∃ err, NewElasticsearch (Some opts) w = ((None, Some err), w)
              ∧ Contains (Error err) "cannot be empty" = true).
Proof.
  split.
  - by exists (New "elasticsearch options cannot be nil").
  - intros opts Hempty. exists (New "elasticsearch addresses cannot be empty").
    unfold NewElasticsearch. by rewrite Hempty.
Qed.

Lemma NewElasticsearch_built opts w :
  Options.Addresses opts ≠ [] ->
  built (snd (NewElasticsearch (Some opts) w)) = (built w ++ [nativeConfig opts])%list
  ∧ (∀ c, fst (fst (NewElasticsearch (Some opts) w)) = Some c ->
          transportConfig (client c) = nativeConfig opts).
Proof.
  intros Hne. unfold NewElasticsearch.
  destruct (Options.Addresses opts) as [|addr rest] eqn:Haddrs; [done|].
  simpl length. simpl Nat.eqb. cbv iota zeta.
  unfold NewClient, WithTimeout, bind, ret, emit.
  destruct (refuses (nativeConfig opts)) as [err|]; simpl.
  { split; [quiet|done]. }
  unfold Do. simpl.
  destruct (snd (transport _ _ _ _ _)) as [err|res]; simpl.
  { split; [quiet|done]. }
  destruct (IsError res); simpl.
  - split; [quiet|done].
  - split; [quiet|]. by intros c [= <-].
Qed.

Lemma nativeConfig_fields opts :
  ESConfig.Addresses (nativeConfig opts) = Options.Addresses opts
  ∧ (Options.Username opts ≠ "" -> Options.Password opts ≠ "" ->
       ESConfig.Username (nativeConfig opts) = Options.Username opts
       ∧ ESConfig.Password (nativeConfig opts) = Options.Password opts
       ∧ ESConfig.APIKey (nativeConfig opts) = "")
  ∧ (Options.Username opts = "" ∨ Options.Password opts = "" ->
       ESConfig.Username (nativeConfig opts) = ""
       ∧ ESConfig.Password (nativeConfig opts) = ""
       ∧ ESConfig.APIKey (nativeConfig opts) = Options.APIKey opts)
  ∧ ESConfig.CloudID (nativeConfig opts) = Options.CloudID opts
  ∧ (0 < Options.MaxRetries opts ->
       ESConfig.MaxRetries (nativeConfig opts) = Options.MaxRetries opts)
  ∧ (Options.MaxRetries opts <= 0 -> ESConfig.MaxRetries (nativeConfig opts) = 3).
Proof.
  unfold nativeConfig.
  destruct (Z.gtb_spec (Options.MaxRetries opts) 0);
    repeat case_bool_decide; simpl;
    split_and!; intros; split_and?; try done; try lia;
    try (destruct_or?; congruence).
  all: by destruct (decide (Options.CloudID opts = "")); [|congruence].
Qed.

(** C7. Options that pass the two checks reach elasticsearch.NewClient as
    one configuration: it carries the addresses; it carries the user name
    and password, and no API key, when both are non-empty, and otherwise the
    API key alone; it carries the cloud identifier in either case; its retry
    count is that of the options when positive and 3 otherwise. A client
    that is returned holds this configuration. *)
Theorem native_client_configuration opts w :
  Options.Addresses opts ≠ [] ->
  ∃ cfg,
    built (snd (NewElasticsearch (Some opts) w)) = (built w ++ [cfg])%list
    ∧ (∀ c, fst (fst (NewElasticsearch (Some opts) w)) = Some c ->
            transportConfig (client c) = cfg)
    ∧ ESConfig.Addresses cfg = Options.Addresses opts
    ∧ (Options.Username opts ≠ "" -> Options.Password opts ≠ "" ->
         ESConfig.Username cfg = Options.Username opts
         ∧ ESConfig.Password cfg = Options.Password opts
         ∧ ESConfig.APIKey cfg = "")
    ∧ (Options.Username opts = "" ∨ Options.Password opts = "" ->
         ESConfig.Username cfg = ""
         ∧ ESConfig.Password cfg = ""
         ∧ ESConfig.APIKey cfg = Options.APIKey opts)
    ∧ ESConfig.CloudID cfg = Options.CloudID opts
    ∧ (0 < Options.MaxRetries opts ->
         ESConfig.MaxRetries cfg = Options.MaxRetries opts)
    ∧ (Options.MaxRetries opts <= 0 -> ESConfig.MaxRetries cfg = 3).
Proof.
  intros Hne. exists (nativeConfig opts).
  destruct (NewElasticsearch_built opts w Hne) as [Hbuilt Hclient].
  split; [exact Hbuilt|]. split; [exact Hclient|]. apply nativeConfig_fields.
Qed.

(** ** Body normalization *)

Lemma executeWithTrace_ext ctx operation index documentID en handler1 handler2 w :
  (∀ ctx' w', handler1 ctx' w' = handler2 ctx' w') ->
  executeWithTrace ctx operation index documentID en handler1 w
  = executeWithTrace ctx operation index documentID en handler2 w.
Proof.
  intros Hext. unfold executeWithTrace. run. destruct en; simpl; by rewrite Hext.
Qed.

Lemma index_string c ctx index_ documentID s w :
  index c ctx index_ documentID (VString s) w
  = index c ctx index_ documentID (VBytes (list_byte_of_string s)) w.
Proof. reflexivity. Qed.

Lemma index_structured c ctx index_ documentID v w :
  structured v = true ->
  index c ctx index_ documentID v w
  = match Marshal v with
    | inl err => (Some (Wrap "failed to marshal document: " err), w)
    | inr bodyBytes => index c ctx index_ documentID (VBytes bodyBytes) w
    end.
Proof.
  intros Hv. unfold index. destruct v; try discriminate Hv;
    by destruct (Marshal _) as [err|bodyBytes].
Qed.

Lemma index_bytes_dispatched c ctx index_ documentID b w :
  dispatched (snd (index c ctx index_ documentID (VBytes b) w))
  = (dispatched w ++ [IndexRequest index_ documentID (string_of_list_byte b) "true"])%list.
Proof.
  unfold index, bind, ret. rewrite <- (Do_dispatched _ ctx (client c)).
  destruct (Do _ _ _ _) as [[err|res] w']; simpl; [done|]. by case_match.
Qed.

Lemma Update_string c ctx index documentID s w :
  Update c ctx index documentID (VString s) w
  = Update c ctx index documentID (VBytes (list_byte_of_string s)) w.
Proof. reflexivity. Qed.

Lemma Update_structured c ctx index documentID v w :
  structured v = true ->
  Update c ctx index documentID v w
  = match Marshal v with
    | inl err => (Some (Wrap "failed to marshal document: " err), w)
    | inr bodyBytes => Update c ctx index documentID (VBytes bodyBytes) w
    end.
Proof.
  intros Hv. unfold Update. destruct v; try discriminate Hv;
    by destruct (Marshal _) as [err|bodyBytes].
Qed.

Lemma Update_bytes c ctx index documentID b w :
  match Marshal (VMap (Some {[ "doc" := VRawMessage b ]})) with
  | inl err =>
    Update c ctx index documentID (VBytes b) w
    = (Some (Wrap "failed to marshal update body: " err), w)
  | inr updateBodyBytes =>
    dispatched (snd (Update c ctx index documentID (VBytes b) w))
    = (dispatched w
       ++ [UpdateRequest index documentID (string_of_list_byte updateBodyBytes) "true"])%list
  end.
Proof.
  unfold Update. destruct (Marshal _) as [err|updateBodyBytes]; [done|].
  unfold bind, ret. rewrite <- (Do_dispatched _ ctx (client c)).
  destruct (Do _ _ _ _) as [[err|res] w']; simpl; [done|]. by repeat case_match.
Qed.

(** C2. Index and Update take a string or a byte slice as the body as it
    is, and serialize any other value with json.Marshal. A string, its
    bytes, and a value that serializes to those bytes make the same call
    with the same effects, so the payload on the wire is the same JSON text
    (for Update, inside the "doc" envelope). When serialization fails the
    error is returned with no request sent: Update leaves the world as it
    was, and Index, being decorated, only logs. *)
Theorem payload_normalization c ctx index_ documentID w
    (s : string) (b : list byte) (v : value) :
  structured v = true ->
  dispatched (snd (Index c ctx index_ documentID (VString s) w))
  = (dispatched w ++ [IndexRequest index_ documentID s "true"])%list
  ∧ dispatched (snd (Index c ctx index_ documentID (VBytes b) w))
    = (dispatched w
       ++ [IndexRequest index_ documentID (string_of_list_byte b) "true"])%list
  ∧ Index c ctx index_ documentID (VString s) w
    = Index c ctx index_ documentID (VBytes (list_byte_of_string s)) w
  ∧ Update c ctx index_ documentID (VString s) w
    = Update c ctx index_ documentID (VBytes (list_byte_of_string s)) w
  ∧ match Marshal v with
    | inr bodyBytes =>
      Index c ctx index_ documentID v w
      = Index c ctx index_ documentID (VBytes bodyBytes) w
      ∧ Update c ctx index_ documentID v w
        = Update c ctx index_ documentID (VBytes bodyBytes) w
    | inl err =>
      fst (Index c ctx index_ documentID v w)
      = Some (Wrap "failed to marshal document: " err)
      ∧ network (snd (Index c ctx index_ documentID v w)) = network w
      ∧ Update c ctx index_ documentID v w
        = (Some (Wrap "failed to marshal document: " err), w)
    end
  ∧ match Marshal (VMap (Some {[ "doc" := VRawMessage b ]})) with
    | inl err =>
      Update c ctx index_ documentID (VBytes b) w
      = (Some (Wrap "failed to marshal update body: " err), w)
    | inr updateBodyBytes =>
      dispatched (snd (Update c ctx index_ documentID (VBytes b) w))
      = (dispatched w
         ++ [UpdateRequest index_ documentID
               (string_of_list_byte updateBodyBytes) "true"])%list
    end.
Proof.
  intros Hv. split_and!.
  - destruct (Index_as_index c ctx index_ documentID (VString s) w) as [_ Hnet].
    rewrite (network_dispatched _ _ Hnet), index_string, index_bytes_dispatched.
    by rewrite string_of_list_byte_of_string.
  - destruct (Index_as_index c ctx index_ documentID (VBytes b) w) as [_ Hnet].
    rewrite (network_dispatched _ _ Hnet). apply index_bytes_dispatched.
  - reflexivity.
  - reflexivity.
  - destruct (Marshal v) as [err|bodyBytes] eqn:Hm.
    + destruct (Index_as_index c ctx index_ documentID v w) as [-> ->].
      rewrite index_structured, Update_structured by done. by rewrite Hm.
    + split.
      * apply executeWithTrace_ext. intros ctx' w'.
        rewrite index_structured by done. by rewrite Hm.
      * rewrite Update_structured by done. by rewrite Hm.
  - apply Update_bytes.
Qed.

(** ** Forced refresh *)

(** C10. Every Bulk call sends exactly one request, a bulk request with
    Refresh set to "true", whether tracing is on or off and whatever the
    cluster answers: the same value Index and Delete put in their requests. *)
Theorem Bulk_forces_refresh c ctx body index_ documentID document w :
  dispatched (snd (Bulk c ctx body w))
  = (dispatched w ++ [BulkRequest body "true"])%list
  ∧ dispatched (snd (Index c ctx index_ documentID (VBytes document) w))
    = (dispatched w
       ++ [IndexRequest index_ documentID (string_of_list_byte document) "true"])%list
  ∧ dispatched (snd (Delete c ctx index_ documentID w))
    = (dispatched w ++ [DeleteRequest index_ documentID "true"])%list.
Proof.
  split_and!.
  - destruct (Bulk_as_bulk c ctx body w) as [_ Hnet].
    rewrite (network_dispatched _ _ Hnet). apply bulk_dispatched.
  - destruct (Index_as_index c ctx index_ documentID (VBytes document) w) as [_ Hnet].
    rewrite (network_dispatched _ _ Hnet). apply index_bytes_dispatched.
  - destruct (Delete_as_delete c ctx index_ documentID w) as [_ Hnet].
    rewrite (network_dispatched _ _ Hnet). apply delete_dispatched.
Qed.

(** ** The trace flag *)

Lemma trace_flag_operations cl ctx index_ documentID body query w :
  let traced := {| client := cl; EnableTrace := true |} in
  let untraced := {| client := cl; EnableTrace := false |} in
  (fst (Index traced ctx index_ documentID body w)
   = fst (Index untraced ctx index_ documentID body w)
   ∧ network (snd (Index traced ctx index_ documentID body w))
     = network (snd (Index untraced ctx index_ documentID body w)))
  ∧ (fst (Get traced ctx index_ documentID w)
     = fst (Get untraced ctx index_ documentID w)
     ∧ network (snd (Get traced ctx index_ documentID w))
       = network (snd (Get untraced ctx index_ documentID w)))
  ∧ (fst (Delete traced ctx index_ documentID w)
     = fst (Delete untraced ctx index_ documentID w)
     ∧ network (snd (Delete traced ctx index_ documentID w))
       = network (snd (Delete untraced ctx index_ documentID w)))
  ∧ (fst (Search traced ctx index_ query w)
     = fst (Search untraced ctx index_ query w)
     ∧ network (snd (Search traced ctx index_ query w))
       = network (snd (Search untraced ctx index_ query w)))
  ∧ (fst (Bulk traced ctx documentID w) = fst (Bulk untraced ctx documentID w)
     ∧ network (snd (Bulk traced ctx documentID w))
       = network (snd (Bulk untraced ctx documentID w))).
Proof.
  intros traced untraced. split_and!.
  - destruct (Index_as_index traced ctx index_ documentID body w) as [-> _].
    by destruct (Index_as_index untraced ctx index_ documentID body w) as [-> _].
  - destruct (Index_as_index traced ctx index_ documentID body w) as [_ ->].
    by destruct (Index_as_index untraced ctx index_ documentID body w) as [_ ->].
  - destruct (Get_as_get traced ctx index_ documentID w) as [-> _].
    by destruct (Get_as_get untraced ctx index_ documentID w) as [-> _].
  - destruct (Get_as_get traced ctx index_ documentID w) as [_ ->].
    by destruct (Get_as_get untraced ctx index_ documentID w) as [_ ->].
  - destruct (Delete_as_delete traced ctx index_ documentID w) as [-> _].
    by destruct (Delete_as_delete untraced ctx index_ documentID w) as [-> _].
  - destruct (Delete_as_delete traced ctx index_ documentID w) as [_ ->].
    by destruct (Delete_as_delete untraced ctx index_ documentID w) as [_ ->].
  - destruct (Search_as_search traced ctx index_ query w) as [-> _].
    by destruct (Search_as_search untraced ctx index_ query w) as [-> _].
  - destruct (Search_as_search traced ctx index_ query w) as [_ ->].
    by destruct (Search_as_search untraced ctx index_ query w) as [_ ->].
  - destruct (Bulk_as_bulk traced ctx documentID w) as [-> _].
    by destruct (Bulk_as_bulk untraced ctx documentID w) as [-> _].
  - destruct (Bulk_as_bulk traced ctx documentID w) as [_ ->].
    by destruct (Bulk_as_bulk untraced ctx documentID w) as [_ ->].
Qed.

(** C6. executeWithTrace returns the error its handler returned, and
    queryWithTrace the handler's error, with the handler's result when
    there is no error (and the nil map when there is one). Hence a unit of
    work that ends the same way in the traced and in the untraced run gives
    both runs the same result; and Index, Get, Delete, Search and Bulk on a
    client with the trace flag on return what they return with the flag
    off, after the same requests at the same times. *)
Theorem decorators_keep_the_outcome ctx operation index_ documentID
    (handler : Context -> M (option error))
    (query : Context -> M (GoMap * option error)) w :
  (∀ en,
     let at_entry := entered en ctx (operationAttrs operation index_ documentID) w in
     fst (executeWithTrace ctx operation index_ documentID en handler w)
     = fst (handler (fst at_entry) (snd at_entry)))
  ∧ (∀ en result err,
       let at_entry := entered en ctx (queryAttrs operation index_) w in
       fst (query (fst at_entry) (snd at_entry)) = (result, err) ->
       fst (queryWithTrace ctx operation index_ en query w)
       = (match err with Some _ => None | None => result end, err))
  ∧ (let at_entry := entered true ctx (operationAttrs operation index_ documentID) w in
     fst (handler (fst at_entry) (snd at_entry)) = fst (handler ctx w) ->
     fst (executeWithTrace ctx operation index_ documentID true handler w)
     = fst (executeWithTrace ctx operation index_ documentID false handler w))
  ∧ (let at_entry := entered true ctx (queryAttrs operation index_) w in
     fst (query (fst at_entry) (snd at_entry)) = fst (query ctx w) ->
     fst (queryWithTrace ctx operation index_ true query w)
     = fst (queryWithTrace ctx operation index_ false query w))
  ∧ (∀ cl body search_query,
       let traced := {| client := cl; EnableTrace := true |} in
       let untraced := {| client := cl; EnableTrace := false |} in
       (fst (Index traced ctx index_ documentID body w)
        = fst (Index untraced ctx index_ documentID body w)
        ∧ network (snd (Index traced ctx index_ documentID body w))
          = network (snd (Index untraced ctx index_ documentID body w)))
       ∧ (fst (Get traced ctx index_ documentID w)
          = fst (Get untraced ctx index_ documentID w)
          ∧ network (snd (Get traced ctx index_ documentID w))
            = network (snd (Get untraced ctx index_ documentID w)))
       ∧ (fst (Delete traced ctx index_ documentID w)
          = fst (Delete untraced ctx index_ documentID w)
          ∧ network (snd (Delete traced ctx index_ documentID w))
            = network (snd (Delete untraced ctx index_ documentID w)))
       ∧ (fst (Search traced ctx index_ search_query w)
          = fst (Search untraced ctx index_ search_query w)
          ∧ network (snd (Search traced ctx index_ search_query w))
            = network (snd (Search untraced ctx index_ search_query w)))
       ∧ (fst (Bulk traced ctx documentID w) = fst (Bulk untraced ctx documentID w)
          ∧ network (snd (Bulk traced ctx documentID w))
            = network (snd (Bulk untraced ctx documentID w)))).
Proof.
  split_and!.
  - intros en. apply executeWithTrace_handler.
  - intros en result err at_entry Hq.
    destruct (queryWithTrace_handler ctx operation index_ en query w) as [-> _].
    fold at_entry. by rewrite Hq.
  - intros at_entry Hsame.
    destruct (executeWithTrace_handler ctx operation index_ documentID true handler w)
      as [-> _].
    destruct (executeWithTrace_handler ctx operation index_ documentID false handler w)
      as [-> _].
    exact Hsame.
  - intros at_entry Hsame.
    destruct (queryWithTrace_handler ctx operation index_ true query w) as [-> _].
    destruct (queryWithTrace_handler ctx operation index_ false query w) as [-> _].
    fold at_entry. by rewrite Hsame.
  - intros cl body search_query. apply trace_flag_operations.
Qed.

(** * Further properties of the operations *)

(** ** Each bare operation as one exchange *)

Ltac one_exchange :=
  unfold bind, ret, answer, Do; simpl;
  repeat (case_match; simpl in *; simplify_eq);
  repeat match goal with
         | H : Decode ?body = _, H' : context [Decode ?body] |- _ =>
           rewrite H in H'; simpl in H'
         end;
  simplify_eq; reflexivity.

Lemma index_run c ctx index_ documentID b w :
  let req := IndexRequest index_ documentID (string_of_list_byte b) "true" in
  index c ctx index_ documentID (VBytes b) w
  = (match answer (client c) ctx w req with
     | inl err => Some (Wrap "failed to index document: " err)
     | inr res =>
       if IsError res
       then Some (New ("elasticsearch index error: " ++ ResponseString res))
       else None
     end, snd (Do req ctx (client c) w)).
Proof. unfold index. one_exchange. Qed.

Lemma get_run c ctx index documentID w :
  let req := GetRequest index documentID in
  get c ctx index documentID w
  = (match answer (client c) ctx w req with
     | inl err => (None, Some (Wrap "failed to get document: " err))
     | inr res =>
       if IsError res
       then (None, Some (if StatusCode res =? 404
                         then New "document not found"
                         else New ("elasticsearch get error: " ++ ResponseString res)))
       else match snd (Decode (ResponseBody res)) with
            | Some err => (None, Some (Wrap "failed to decode response: " err))
            | None => (fst (Decode (ResponseBody res)), None)
            end
     end, snd (Do req ctx (client c) w)).
Proof. unfold get. one_exchange. Qed.

Lemma delete_run c ctx index documentID w :
  let req := DeleteRequest index documentID "true" in
  delete c ctx index documentID w
  = (match answer (client c) ctx w req with
     | inl err => Some (Wrap "failed to delete document: " err)
     | inr res =>
       if IsError res
       then Some (if StatusCode res =? 404
                  then New "document not found"
                  else New ("elasticsearch delete error: " ++ ResponseString res))
       else None
     end, snd (Do req ctx (client c) w)).
Proof. unfold delete. one_exchange. Qed.

Lemma bulk_run c ctx body w :
  let req := BulkRequest body "true" in
  bulk c ctx body w
  = (match answer (client c) ctx w req with
     | inl err => Some (Wrap "failed to bulk: " err)
     | inr res =>
       if IsError res
       then Some (New ("elasticsearch bulk error: " ++ ResponseString res))
       else None
     end, snd (Do req ctx (client c) w)).
Proof. unfold bulk. one_exchange. Qed.

Lemma executeQueryRequest_run c ctx index query reqFunc operation w :
  executeQueryRequest c ctx index query reqFunc operation w
  = match Marshal (VMap query) with
    | inl err => ((None, Some (Wrap "failed to marshal query: " err)), w)
    | inr queryBytes =>
      let req := reqFunc [index] (string_of_list_byte queryBytes) in
      (match answer (client c) ctx w req with
       | inl err => (None, Some (Wrap ("failed to " ++ operation ++ ": ") err))
       | inr res =>
         if IsError res
         then (None, Some (New ("elasticsearch " ++ operation ++ " error: "
                                ++ ResponseString res)))
         else match snd (Decode (ResponseBody res)) with
              | Some err => (None, Some (Wrap "failed to decode response: " err))
              | None => (fst (Decode (ResponseBody res)), None)
              end
       end, snd (Do req ctx (client c) w))
    end.
Proof. unfold executeQueryRequest. one_exchange. Qed.

Lemma ExistsIndex_run c ctx index w :
  let req := IndicesExistsRequest [index] in
  ExistsIndex c ctx index w
  = (match answer (client c) ctx w req with
     | inl err => (false, Some (Wrap "failed to check index: " err))
     | inr res =>
       if StatusCode res =? 404 then (false, None)
       else if IsError res
       then (false, Some (New ("elasticsearch exists index error: "
                               ++ ResponseString res)))
       else (true, None)
     end, snd (Do req ctx (client c) w)).
Proof. unfold ExistsIndex. one_exchange. Qed.

Lemma Update_run c ctx index documentID b w :
  Update c ctx index documentID (VBytes b) w
  = match Marshal (VMap (Some {[ "doc" := VRawMessage b ]})) with
    | inl err => (Some (Wrap "failed to marshal update body: " err), w)
    | inr updateBodyBytes =>
      let req := UpdateRequest index documentID
                   (string_of_list_byte updateBodyBytes) "true" in
      (match answer (client c) ctx w req with
       | inl err => Some (Wrap "failed to update document: " err)
       | inr res =>
         if IsError res
         then Some (if StatusCode res =? 404
                    then New "document not found"
                    else New ("elasticsearch update error: " ++ ResponseString res))
         else None
       end, snd (Do req ctx (client c) w))
    end.
Proof. unfold Update. one_exchange. Qed.

Lemma UpdateByQuery_run c ctx index query script w :
  let updateQuery : gmap string value :=
    match script with
    | Some _ => <[ "script" := VMap script ]> {[ "query" := VMap query ]}
    | None => {[ "query" := VMap query ]}
    end in
  UpdateByQuery c ctx index query script w
  = match Marshal (VMap (Some updateQuery)) with
    | inl err => ((None, Some (Wrap "failed to marshal update query: " err)), w)
    | inr queryBytes =>
      let req := UpdateByQueryRequest [index] (string_of_list_byte queryBytes) in
      (match answer (client c) ctx w req with
       | inl err => (None, Some (Wrap "failed to update by query: " err))
       | inr res =>
         if IsError res
         then (None, Some (New ("elasticsearch update by query error: "
                                ++ ResponseString res)))
         else match snd (Decode (ResponseBody res)) with
              | Some err => (None, Some (Wrap "failed to decode response: " err))
              | None => (fst (Decode (ResponseBody res)), None)
              end
       end, snd (Do req ctx (client c) w))
    end.
Proof. unfold UpdateByQuery. one_exchange. Qed.

Lemma Count_run c ctx index query w :
  Count c ctx index query w
  = match (match query with
           | Some _ => Marshal (VMap query)
           | None => inr []
           end) with
    | inl err => ((0, Some (Wrap "failed to marshal query: " err)), w)
    | inr queryBytes =>
      let req := CountRequest [index]
                   (if (0 <? length queryBytes)%nat
                    then Some (string_of_list_byte queryBytes) else None) in
      (match answer (client c) ctx w req with
       | inl err => (0, Some (Wrap "failed to count: " err))
       | inr res =>
         if IsError res
         then (0, Some (New ("elasticsearch count error: " ++ ResponseString res)))
         else match snd (Decode (ResponseBody res)) with
              | Some err => (0, Some (Wrap "failed to decode response: " err))
              | None =>
                match assertFloat64 (mapIndex (fst (Decode (ResponseBody res))) "count") with
                | Some count => (int64_of_float64 count, None)
                | None => (0, Some (New "invalid count response format"))
                end
              end
       end, snd (Do req ctx (client c) w))
    end.
Proof. unfold Count. one_exchange. Qed.

Lemma index_body c ctx index_ documentID body w :
  index c ctx index_ documentID body w
  = match bodyBytes body with
    | inl err => (Some err, w)
    | inr b => index c ctx index_ documentID (VBytes b) w
    end.
Proof.
  unfold index, bodyBytes. destruct body; try reflexivity;
    by destruct (Marshal _).
Qed.

Lemma Update_body c ctx index documentID body w :
  Update c ctx index documentID body w
  = match bodyBytes body with
    | inl err => (Some err, w)
    | inr b => Update c ctx index documentID (VBytes b) w
    end.
Proof.
  unfold Update, bodyBytes. destruct body; try reflexivity;
    by destruct (Marshal _).
Qed.

Lemma failed_request {A} (op : M A) w cl ctx err req :
  dispatched (snd (op w)) = (dispatched w ++ [req])%list ->
  failed op w cl ctx err -> answer cl ctx w req = inl err.
Proof.
  intros Hop (req' & Hsent & Hans). rewrite Hop in Hsent.
  apply app_inv_head in Hsent. by injection Hsent as ->.
Qed.

Lemma not_failed {A} (op : M A) w cl ctx err :
  dispatched (snd (op w)) = dispatched w -> ¬ failed op w cl ctx err.
Proof.
  intros Hop (req & Hsent & _). rewrite Hop in Hsent.
  apply (f_equal length) in Hsent. rewrite length_app in Hsent. simpl in Hsent. lia.
Qed.

Lemma failed_ext {A B} (op1 : M A) (op2 : M B) w cl ctx err :
  network (snd (op1 w)) = network (snd (op2 w)) ->
  failed op1 w cl ctx err -> failed op2 w cl ctx err.
Proof.
  intros Hnet (req & Hsent & Hans). exists req.
  by rewrite <- (network_dispatched _ _ Hnet).
Qed.

Lemma received_ext {A B} (op1 : M A) (op2 : M B) w cl ctx res :
  network (snd (op1 w)) = network (snd (op2 w)) ->
  received op1 w cl ctx res -> received op2 w cl ctx res.
Proof.
  intros Hnet (req & Hsent & Hans). exists req.
  by rewrite <- (network_dispatched _ _ Hnet).
Qed.

(** ** Transport failures *)

Ltac pin H :=
  let req := fresh "req" in
  let Hsent := fresh "Hsent" in
  let Hans := fresh "Hans" in
  cbv zeta in H |- *;
  destruct H as (req & Hsent & Hans); cbn [fst snd] in Hsent;
  first
    [ rewrite Do_dispatched in Hsent; apply app_inv_head in Hsent;
      injection Hsent as <-; try rewrite Hans
    | exfalso; apply (f_equal length) in Hsent; rewrite length_app in Hsent;
      simpl in Hsent; lia ].

Lemma index_failed c ctx index_ documentID body w err :
  failed (index c ctx index_ documentID body) w (client c) ctx err ->
  fst (index c ctx index_ documentID body w)
  = Some (Wrap "failed to index document: " err).
Proof.
  unfold failed. rewrite index_body. destruct (bodyBytes body) as [e|b].
  { intros Hf. pin Hf. }
  rewrite index_run. intros Hf. pin Hf. done.
Qed.

Lemma get_failed c ctx index documentID w err :
  failed (get c ctx index documentID) w (client c) ctx err ->
  fst (get c ctx index documentID w)
  = (None, Some (Wrap "failed to get document: " err)).
Proof. unfold failed. rewrite get_run. intros Hf. pin Hf. done. Qed.

Lemma delete_failed c ctx index documentID w err :
  failed (delete c ctx index documentID) w (client c) ctx err ->
  fst (delete c ctx index documentID w)
  = Some (Wrap "failed to delete document: " err).
Proof. unfold failed. rewrite delete_run. intros Hf. pin Hf. done. Qed.

Lemma bulk_failed c ctx body w err :
  failed (bulk c ctx body) w (client c) ctx err ->
  fst (bulk c ctx body w) = Some (Wrap "failed to bulk: " err).
Proof. unfold failed. rewrite bulk_run. intros Hf. pin Hf. done. Qed.

Lemma executeQueryRequest_failed c ctx index query reqFunc operation w err :
  failed (executeQueryRequest c ctx index query reqFunc operation) w (client c) ctx err ->
  fst (executeQueryRequest c ctx index query reqFunc operation w)
  = (None, Some (Wrap ("failed to " ++ operation ++ ": ") err)).
Proof.
  unfold failed. rewrite executeQueryRequest_run.
  destruct (Marshal _) as [e|queryBytes]; intros Hf; pin Hf. done.
Qed.

(** X5. When the exchange with the cluster fails, every operation returns
    the transport error wrapped under its own prefix, so the cause stays
    reachable by unwrapping; it returns no result beside it. *)
Theorem transport_failure_is_wrapped c ctx index_ documentID body text query script w err :
  (failed (Index c ctx index_ documentID body) w (client c) ctx err ->
   fst (Index c ctx index_ documentID body w)
   = Some (Wrap "failed to index document: " err))
  ∧ (failed (Get c ctx index_ documentID) w (client c) ctx err ->
     fst (Get c ctx index_ documentID w)
     = (None, Some (Wrap "failed to get document: " err)))
  ∧ (failed (Delete c ctx index_ documentID) w (client c) ctx err ->
     fst (Delete c ctx index_ documentID w)
     = Some (Wrap "failed to delete document: " err))
  ∧ (failed (Search c ctx index_ query) w (client c) ctx err ->
     fst (Search c ctx index_ query w)
     = (None, Some (Wrap "failed to search: " err)))
  ∧ (failed (Bulk c ctx text) w (client c) ctx err ->
     fst (Bulk c ctx text w) = Some (Wrap "failed to bulk: " err))
  ∧ (failed (ExistsIndex c ctx index_) w (client c) ctx err ->
     fst (ExistsIndex c ctx index_ w)
     = (false, Some (Wrap "failed to check index: " err)))
  ∧ (failed (Update c ctx index_ documentID body) w (client c) ctx err ->
     fst (Update c ctx index_ documentID body w)
     = Some (Wrap "failed to update document: " err))
  ∧ (failed (UpdateByQuery c ctx index_ query script) w (client c) ctx err ->
     fst (UpdateByQuery c ctx index_ query script w)
     = (None, Some (Wrap "failed to update by query: " err)))
  ∧ (failed (Count c ctx index_ query) w (client c) ctx err ->
     fst (Count c ctx index_ query w) = (0, Some (Wrap "failed to count: " err)))
  ∧ (failed (DeleteByQuery c ctx index_ query) w (client c) ctx err ->
     fst (DeleteByQuery c ctx index_ query w)
     = (None, Some (Wrap "failed to delete by query: " err))).
Proof.
  split_and!.
  - intros Hf. destruct (Index_as_index c ctx index_ documentID body w) as [-> Hnet].
    apply index_failed. by apply (failed_ext _ _ _ _ _ _ Hnet).
  - intros Hf. destruct (Get_as_get c ctx index_ documentID w) as [-> Hnet].
    apply get_failed. by apply (failed_ext _ _ _ _ _ _ Hnet).
  - intros Hf. destruct (Delete_as_delete c ctx index_ documentID w) as [-> Hnet].
    apply delete_failed. by apply (failed_ext _ _ _ _ _ _ Hnet).
  - intros Hf. destruct (Search_as_search c ctx index_ query w) as [-> Hnet].
    apply (executeQueryRequest_failed _ _ _ _ _ "search").
    by apply (failed_ext _ _ _ _ _ _ Hnet).
  - intros Hf. destruct (Bulk_as_bulk c ctx text w) as [-> Hnet].
    apply bulk_failed. by apply (failed_ext _ _ _ _ _ _ Hnet).
  - unfold failed. rewrite ExistsIndex_run. intros Hf. pin Hf. done.
  - unfold failed. rewrite Update_body. destruct (bodyBytes body) as [e|b].
    { intros Hf. pin Hf. }
    rewrite Update_run. destruct (Marshal _) as [e|updateBodyBytes];
      intros Hf; pin Hf. done.
  - unfold failed. rewrite UpdateByQuery_run.
    destruct (Marshal _) as [e|queryBytes]; intros Hf; pin Hf. done.
  - unfold failed. rewrite Count_run.
    match goal with |- context [match ?n with inl _ => _ | inr _ => _ end] =>
      destruct n as [e|queryBytes] end; intros Hf; pin Hf. done.
  - apply (executeQueryRequest_failed _ _ _ _ _ "delete by query").
Qed.

(** ** Success *)

Lemma index_ok c ctx index_ documentID body w :
  fst (index c ctx index_ documentID body w) = None
  ↔ ∃ res, received (index c ctx index_ documentID body) w (client c) ctx res
           ∧ IsError res = false.
Proof.
  unfold received. rewrite index_body. destruct (bodyBytes body) as [e|b].
  { split; [done|]. intros (res & Hr & _). pin Hr. }
  rewrite index_run. cbv zeta. cbn [fst snd]. split.
  - destruct (answer _ _ _ _) as [e|res] eqn:Hans; [done|].
    destruct (IsError res) eqn:Herr; [done|]. intros _. exists res. split; [|done].
    eexists. split; [apply Do_dispatched|done].
  - intros (res & Hr & Hok). pin Hr. by rewrite Hok.
Qed.

Lemma delete_ok c ctx index documentID w :
  fst (delete c ctx index documentID w) = None
  ↔ ∃ res, received (delete c ctx index documentID) w (client c) ctx res
           ∧ IsError res = false.
Proof.
  unfold received. rewrite delete_run. cbv zeta. cbn [fst snd]. split.
  - destruct (answer _ _ _ _) as [e|res] eqn:Hans; [done|].
    destruct (IsError res) eqn:Herr; [done|]. intros _. exists res. split; [|done].
    eexists. split; [apply Do_dispatched|done].
  - intros (res & Hr & Hok). pin Hr. by rewrite Hok.
Qed.

Lemma bulk_ok c ctx body w :
  fst (bulk c ctx body w) = None
  ↔ ∃ res, received (bulk c ctx body) w (client c) ctx res ∧ IsError res = false.
Proof.
  unfold received. rewrite bulk_run. cbv zeta. cbn [fst snd]. split.
  - destruct (answer _ _ _ _) as [e|res] eqn:Hans; [done|].
    destruct (IsError res) eqn:Herr; [done|]. intros _. exists res. split; [|done].
    eexists. split; [apply Do_dispatched|done].
  - intros (res & Hr & Hok). pin Hr. by rewrite Hok.
Qed.

(** X6. Index, Delete, Bulk and Update return a nil error exactly when
    one request was sent and answered with a status that IsError accepts
    (any status up to 299): no failure of serialization, of the transport
    or of the cluster ends in nil. *)
Theorem nil_error_means_accepted c ctx index_ documentID body text w :
  (fst (Index c ctx index_ documentID body w) = None
   ↔ ∃ res, received (Index c ctx index_ documentID body) w (client c) ctx res
            ∧ IsError res = false)
  ∧ (fst (Delete c ctx index_ documentID w) = None
     ↔ ∃ res, received (Delete c ctx index_ documentID) w (client c) ctx res
              ∧ IsError res = false)
  ∧ (fst (Bulk c ctx text w) = None
     ↔ ∃ res, received (Bulk c ctx text) w (client c) ctx res
              ∧ IsError res = false)
  ∧ (fst (Update c ctx index_ documentID body w) = None
     ↔ ∃ res, received (Update c ctx index_ documentID body) w (client c) ctx res
              ∧ IsError res = false).
Proof.
  split_and!.
  - destruct (Index_as_index c ctx index_ documentID body w) as [-> Hnet].
    rewrite index_ok. split; intros (res & Hr & Hok); exists res; (split; [|done]).
    + by apply (received_ext _ _ _ _ _ _ (eq_sym Hnet)).
    + by apply (received_ext _ _ _ _ _ _ Hnet).
  - destruct (Delete_as_delete c ctx index_ documentID w) as [-> Hnet].
    rewrite delete_ok. split; intros (res & Hr & Hok); exists res; (split; [|done]).
    + by apply (received_ext _ _ _ _ _ _ (eq_sym Hnet)).
    + by apply (received_ext _ _ _ _ _ _ Hnet).
  - destruct (Bulk_as_bulk c ctx text w) as [-> Hnet].
    rewrite bulk_ok. split; intros (res & Hr & Hok); exists res; (split; [|done]).
    + by apply (received_ext _ _ _ _ _ _ (eq_sym Hnet)).
    + by apply (received_ext _ _ _ _ _ _ Hnet).
  - unfold received. rewrite Update_body. destruct (bodyBytes body) as [e|b].
    { split; [done|]. intros (res & Hr & _). pin Hr. }
    rewrite Update_run. destruct (Marshal _) as [e|updateBodyBytes].
    { split; [done|]. intros (res & Hr & _). pin Hr. }
    cbv zeta. cbn [fst snd]. split.
    + destruct (answer _ _ _ _) as [e|res] eqn:Hans; [done|].
      destruct (IsError res) eqn:Herr; [done|]. intros _. exists res. split; [|done].
      eexists. split; [apply Do_dispatched|done].
    + intros (res & Hr & Hok). pin Hr. by rewrite Hok.
Qed.

(** ** Decoded results *)

Lemma get_decoded c ctx index documentID w res :
  received (get c ctx index documentID) w (client c) ctx res ->
  IsError res = false ->
  fst (get c ctx index documentID w)
  = match snd (Decode (ResponseBody res)) with
    | Some err => (None, Some (Wrap "failed to decode response: " err))
    | None => (fst (Decode (ResponseBody res)), None)
    end.
Proof.
  unfold received. rewrite get_run. intros Hr Hok. pin Hr. by rewrite Hok.
Qed.

Lemma executeQueryRequest_decoded c ctx index query reqFunc operation w res :
  received (executeQueryRequest c ctx index query reqFunc operation) w (client c) ctx res ->
  IsError res = false ->
  fst (executeQueryRequest c ctx index query reqFunc operation w)
  = match snd (Decode (ResponseBody res)) with
    | Some err => (None, Some (Wrap "failed to decode response: " err))
    | None => (fst (Decode (ResponseBody res)), None)
    end.
Proof.
  unfold received. rewrite executeQueryRequest_run.
  destruct (Marshal _) as [e|queryBytes]; intros Hr Hok; pin Hr. by rewrite Hok.
Qed.

(** X7. When Get, Search, UpdateByQuery or DeleteByQuery receives a
    response that IsError accepts, it returns what the decoder made of
    the body with a nil error, be it the nil map (a body [null]); and
    when the decoder fails it returns the nil map with the decoder's
    error wrapped under "failed to decode response: ". *)
Theorem accepted_response_is_decoded c ctx index_ documentID query script w res :
  IsError res = false ->
  let decoded :=
    match snd (Decode (ResponseBody res)) with
    | Some err => (None, Some (Wrap "failed to decode response: " err))
    | None => (fst (Decode (ResponseBody res)), None)
    end in
  (received (Get c ctx index_ documentID) w (client c) ctx res ->
   fst (Get c ctx index_ documentID w) = decoded)
  ∧ (received (Search c ctx index_ query) w (client c) ctx res ->
     fst (Search c ctx index_ query w) = decoded)
  ∧ (received (UpdateByQuery c ctx index_ query script) w (client c) ctx res ->
     fst (UpdateByQuery c ctx index_ query script w) = decoded)
  ∧ (received (DeleteByQuery c ctx index_ query) w (client c) ctx res ->
     fst (DeleteByQuery c ctx index_ query w) = decoded).
Proof.
  intros Hok decoded. split_and!.
  - intros Hr. destruct (Get_as_get c ctx index_ documentID w) as [-> Hnet].
    apply get_decoded; [|done]. by apply (received_ext _ _ _ _ _ _ Hnet).
  - intros Hr. destruct (Search_as_search c ctx index_ query w) as [-> Hnet].
    apply (executeQueryRequest_decoded _ _ _ _ _ "search"); [|done].
    by apply (received_ext _ _ _ _ _ _ Hnet).
  - unfold received. rewrite UpdateByQuery_run.
    destruct (Marshal _) as [e|queryBytes]; intros Hr; pin Hr. by rewrite Hok.
  - intros Hr. by apply (executeQueryRequest_decoded _ _ _ _ _ "delete by query").
Qed.

(** ** ExistsIndex again *)

(** X8. ExistsIndex answers true exactly when the exchange succeeds with
    a status of at most 299, and then without an error: it never reports
    an index as existing together with an error, and a transport failure
    reads as false. *)
Theorem ExistsIndex_true_iff c ctx index w :
  (fst (fst (ExistsIndex c ctx index w)) = true
   ↔ ∃ res, answer (client c) ctx w (IndicesExistsRequest [index]) = inr res
            ∧ StatusCode res <= 299)
  ∧ (fst (fst (ExistsIndex c ctx index w)) = true ->
     snd (fst (ExistsIndex c ctx index w)) = None).
Proof.
  rewrite ExistsIndex_run. cbv zeta. cbn [fst snd]. unfold IsError.
  destruct (answer _ _ _ _) as [e|res].
  { split; [|done]. split; [done|]. by intros (res & [=] & _). }
  destruct (Z.eqb_spec (StatusCode res) 404) as [E|Hne];
    destruct (Z.gtb_spec (StatusCode res) 299) as [Hhi|Hlo]; simpl.
  - split; [|done]. split; [done|]. intros (res' & [= <-] & Hle). lia.
  - lia.
  - split; [|done]. split; [done|]. intros (res' & [= <-] & Hle). lia.
  - split; [|done]. split; [|done]. intros _. exists res. split; [done|lia].
Qed.

(** ** Request bodies *)

(** X9. UpdateByQuery serializes a map that holds the query under "query",
    the script under "script" only if the script is not nil, and nothing
    else; if the map does not serialize no request is sent, otherwise the
    one request carries the serialized map and the single index. *)
Theorem UpdateByQuery_body c ctx index query script w :
  ∃ updateQuery : gmap string value,
    updateQuery !! "query" = Some (VMap query)
    ∧ updateQuery !! "script"
      = match script with Some _ => Some (VMap script) | None => None end
    ∧ (∀ key, key ≠ "query" -> key ≠ "script" -> updateQuery !! key = None)
    ∧ match Marshal (VMap (Some updateQuery)) with
      | inl err =>
        UpdateByQuery c ctx index query script w
        = ((None, Some (Wrap "failed to marshal update query: " err)), w)
      | inr queryBytes =>
        dispatched (snd (UpdateByQuery c ctx index query script w))
        = (dispatched w
           ++ [UpdateByQueryRequest [index] (string_of_list_byte queryBytes)])%list
      end.
Proof.
  rewrite UpdateByQuery_run. cbv zeta.
  exists (match script with
          | Some _ => <[ "script" := VMap script ]> {[ "query" := VMap query ]}
          | None => {[ "query" := VMap query ]}
          end).
  split_and!.
  - destruct script; by simplify_map_eq.
  - destruct script; by simplify_map_eq.
  - intros key Hq Hs. destruct script; by simplify_map_eq.
  - destruct (Marshal _) as [e|queryBytes]; [reflexivity|]. apply Do_dispatched.
Qed.

(** X10. Count with a nil query calls no serializer and sends a request
    without a body. With a query it sends the serialized query as the
    body, or no body when the serializer returns no bytes, and sends
    nothing when the serializer fails. *)
Theorem Count_body c ctx index entries w :
  dispatched (snd (Count c ctx index None w))
  = (dispatched w ++ [CountRequest [index] None])%list
  ∧ match Marshal (VMap (Some entries)) with
    | inl err =>
      Count c ctx index (Some entries) w
      = ((0, Some (Wrap "failed to marshal query: " err)), w)
    | inr [] =>
      dispatched (snd (Count c ctx index (Some entries) w))
      = (dispatched w ++ [CountRequest [index] None])%list
    | inr (b :: bs) =>
      dispatched (snd (Count c ctx index (Some entries) w))
      = (dispatched w
         ++ [CountRequest [index] (Some (string_of_list_byte (b :: bs)))])%list
    end.
Proof.
  rewrite !Count_run. cbv zeta. split; [apply Do_dispatched|].
  destruct (Marshal _) as [e|[|b bs]]; [reflexivity|apply Do_dispatched..].
Qed.

(** X11. Search and DeleteByQuery serialize the query even when it is the
    nil map, and send it as the body of one request on the single index;
    when the serializer fails they send nothing and return its error
    wrapped under "failed to marshal query: ". *)
Theorem query_request_shape c ctx index query w :
  match Marshal (VMap query) with
  | inl err =>
    fst (Search c ctx index query w)
    = (None, Some (Wrap "failed to marshal query: " err))
    ∧ network (snd (Search c ctx index query w)) = network w
    ∧ DeleteByQuery c ctx index query w
      = ((None, Some (Wrap "failed to marshal query: " err)), w)
  | inr queryBytes =>
    dispatched (snd (Search c ctx index query w))
    = (dispatched w ++ [SearchRequest [index] (string_of_list_byte queryBytes)])%list
    ∧ dispatched (snd (DeleteByQuery c ctx index query w))
      = (dispatched w
         ++ [DeleteByQueryRequest [index] (string_of_list_byte queryBytes)])%list
  end.
Proof.
  destruct (Search_as_search c ctx index query w) as [Hres Hnet].
  rewrite Hres, Hnet, (network_dispatched _ _ Hnet).
  unfold search, DeleteByQuery. rewrite !executeQueryRequest_run.
  destruct (Marshal _) as [e|queryBytes]; [done|].
  cbv zeta. split; apply Do_dispatched.
Qed.

(** ** What the operations leave in the world *)

Lemma onlyDispatches_refl w : onlyDispatches w w.
Proof. exists []. split; [simpl; lia|]. by rewrite app_nil_r. Qed.

Lemma onlyDispatches_Do req ctx cl w : onlyDispatches w (snd (Do req ctx cl w)).
Proof. exists [req]. split; [simpl; lia|reflexivity]. Qed.


Ltac silent :=
  cbv zeta; repeat case_match; cbn [fst snd];
  first [apply onlyDispatches_refl | apply onlyDispatches_Do].

Lemma index_silent c ctx index_ documentID body w :
  onlyDispatches w (snd (index c ctx index_ documentID body w)).
Proof. rewrite index_body. destruct (bodyBytes body); [silent|]. rewrite index_run. silent. Qed.

Lemma get_silent c ctx index documentID w :
  onlyDispatches w (snd (get c ctx index documentID w)).
Proof. rewrite get_run. silent. Qed.

Lemma delete_silent c ctx index documentID w :
  onlyDispatches w (snd (delete c ctx index documentID w)).
Proof. rewrite delete_run. silent. Qed.

Lemma bulk_silent c ctx body w : onlyDispatches w (snd (bulk c ctx body w)).
Proof. rewrite bulk_run. silent. Qed.

Lemma executeQueryRequest_silent c ctx index query reqFunc operation w :
  onlyDispatches w (snd (executeQueryRequest c ctx index query reqFunc operation w)).
Proof. rewrite executeQueryRequest_run. silent. Qed.

Lemma ExistsIndex_silent c ctx index w :
  onlyDispatches w (snd (ExistsIndex c ctx index w)).
Proof. rewrite ExistsIndex_run. silent. Qed.

Lemma Update_silent c ctx index documentID body w :
  onlyDispatches w (snd (Update c ctx index documentID body w)).
Proof.
  rewrite Update_body. destruct (bodyBytes body); [silent|]. rewrite Update_run. silent.
Qed.

Lemma UpdateByQuery_silent c ctx index query script w :
  onlyDispatches w (snd (UpdateByQuery c ctx index query script w)).
Proof. rewrite UpdateByQuery_run. silent. Qed.

Lemma Count_silent c ctx index query w :
  onlyDispatches w (snd (Count c ctx index query w)).
Proof. rewrite Count_run. silent. Qed.

(** X12. ExistsIndex, Update, UpdateByQuery, Count and DeleteByQuery are
    not decorated: all they add to the world is at most one exchange,
    never a log record and never a span. *)
Theorem undecorated_operations_are_silent c ctx index documentID body query script w :
  onlyDispatches w (snd (ExistsIndex c ctx index w))
  ∧ onlyDispatches w (snd (Update c ctx index documentID body w))
  ∧ onlyDispatches w (snd (UpdateByQuery c ctx index query script w))
  ∧ onlyDispatches w (snd (Count c ctx index query w))
  ∧ onlyDispatches w (snd (DeleteByQuery c ctx index query w)).
Proof.
  split_and!.
  - apply ExistsIndex_silent.
  - apply Update_silent.
  - apply UpdateByQuery_silent.
  - apply Count_silent.
  - apply executeQueryRequest_silent.
Qed.






(** ** What the decorators record *)

(** X14. With tracing on, executeWithTrace starts one span before its
    handler runs and, once the handler is back, adds one log record
    (error level with the error, info level without), marks the span
    accordingly and ends it, the end being the last event on either path.
    With tracing off it adds the one log record and nothing else. The
    duration logged is the time from entry to the handler's return. *)
Theorem executeWithTrace_records ctx operation index_ documentID handler w :
  let span := spansStarted w in
  let traced := entered true ctx (operationAttrs operation index_ documentID) w in
  let ran := handler (fst traced) (snd traced) in
  let plain := handler ctx w in
  events (snd traced)
  = (events w ++ [SpanStarted span "elasticsearch.operation"
                    (operationAttrs operation index_ documentID)])%list
  ∧ ctxSpan (fst traced) = Some span
  ∧ events (snd (executeWithTrace ctx operation index_ documentID true handler w))
    = (events (snd ran)
       ++ match fst ran with
          | Some err =>
            [Logged (fst traced) levelError "Elasticsearch operation failed"
               [zapString "operation" operation; zapString "index" index_;
                zapString "document_id" documentID;
                zapDuration "duration" (clock (snd ran) - clock w);
                zapError err];
             SpanStatus span codesError (Error err);
             SpanError span err;
             SpanAttributes span [attrString "db.status" "error";
                                  attrString "db.error" (Error err)];
             SpanEnded span]
          | None =>
            [Logged (fst traced) levelInfo "Elasticsearch operation success"
               [zapString "operation" operation; zapString "index" index_;
                zapString "document_id" documentID;
                zapDuration "duration" (clock (snd ran) - clock w)];
             SpanStatus span codesOk "";
             SpanAttributes span
               [attrString "db.status" "success";
                attrFloat64 "db.duration_ms"
                  (float64_of_int64 (Milliseconds (clock (snd ran) - clock w)))];
             SpanEnded span]
          end)%list
  ∧ events (snd (executeWithTrace ctx operation index_ documentID false handler w))
    = (events (snd plain)
       ++ [match fst plain with
           | Some err =>
             Logged ctx levelError "Elasticsearch operation failed"
               [zapString "operation" operation; zapString "index" index_;
                zapString "document_id" documentID;
                zapDuration "duration" (clock (snd plain) - clock w);
                zapError err]
           | None =>
             Logged ctx levelInfo "Elasticsearch operation success"
               [zapString "operation" operation; zapString "index" index_;
                zapString "document_id" documentID;
                zapDuration "duration" (clock (snd plain) - clock w)]
           end])%list.
Proof.
  intros span traced ran plain. split_and!; try reflexivity.
  - clear plain. subst ran traced span. unfold executeWithTrace, entered, operationAttrs. run.
    destruct (handler _ _) as [[err|] w']; simpl; rewrite <- ?app_assoc; reflexivity.
  - clear ran. subst plain. unfold executeWithTrace. run.
    destruct (handler _ _) as [[err|] w']; reflexivity.
Qed.

(** X15. queryWithTrace records the same: with tracing on, one span
    started before the handler, then one log record, the status of the
    span and its end as the last event, on either path; with tracing off
    the one log record only. Its span carries no document identifier. *)
Theorem queryWithTrace_records ctx operation index_ handler w :
  let span := spansStarted w in
  let traced := entered true ctx (queryAttrs operation index_) w in
  let ran := handler (fst traced) (snd traced) in
  let plain := handler ctx w in
  events (snd traced)
  = (events w ++ [SpanStarted span "elasticsearch.operation"
                    (queryAttrs operation index_)])%list
  ∧ ctxSpan (fst traced) = Some span
  ∧ events (snd (queryWithTrace ctx operation index_ true handler w))
    = (events (snd ran)
       ++ match snd (fst ran) with
          | Some err =>
            [Logged (fst traced) levelError "Elasticsearch operation failed"
               [zapString "operation" operation; zapString "index" index_;
                zapDuration "duration" (clock (snd ran) - clock w);
                zapError err];
             SpanStatus span codesError (Error err);
             SpanError span err;
             SpanAttributes span [attrString "db.status" "error";
                                  attrString "db.error" (Error err)];
             SpanEnded span]
          | None =>
            [Logged (fst traced) levelInfo "Elasticsearch operation success"
               [zapString "operation" operation; zapString "index" index_;
                zapDuration "duration" (clock (snd ran) - clock w)];
             SpanStatus span codesOk "";
             SpanAttributes span
               [attrString "db.status" "success";
                attrFloat64 "db.duration_ms"
                  (float64_of_int64 (Milliseconds (clock (snd ran) - clock w)))];
             SpanEnded span]
          end)%list
  ∧ events (snd (queryWithTrace ctx operation index_ false handler w))
    = (events (snd plain)
       ++ [match snd (fst plain) with
           | Some err =>
             Logged ctx levelError "Elasticsearch operation failed"
               [zapString "operation" operation; zapString "index" index_;
                zapDuration "duration" (clock (snd plain) - clock w);
                zapError err]
           | None =>
             Logged ctx levelInfo "Elasticsearch operation success"
               [zapString "operation" operation; zapString "index" index_;
                zapDuration "duration" (clock (snd plain) - clock w)]
           end])%list.
Proof.
  intros span traced ran plain. split_and!; try reflexivity.
  - clear plain. subst ran traced span. unfold queryWithTrace, entered, queryAttrs. run.
    destruct (handler _ _) as [[result [err|]] w']; simpl; rewrite <- ?app_assoc; reflexivity.
  - clear ran. subst plain. unfold queryWithTrace. run.
    destruct (handler _ _) as [[result [err|]] w']; reflexivity.
Qed.

(** ** Construction and the probe *)

Lemma NewElasticsearch_run opts w :
  Options.Addresses opts ≠ [] ->
  let cfg := nativeConfig opts in
  let native := {| transportConfig := cfg |} in
  let ctx := {| ctxDeadline := Some (clock w + Options.DialTimeout opts);
                ctxSpan := None |} in
  let w1 := {| clock := clock w; events := events w ++ [ClientBuilt cfg] |} in
  NewElasticsearch (Some opts) w
  = match refuses cfg with
    | Some err =>
      ((None, Some (Wrap "failed to create elasticsearch client: " err)), w1)
    | None =>
      (match answer native ctx w InfoRequest with
       | inl err => (None, Some (Wrap "failed to connect to elasticsearch: " err))
       | inr res =>
         if IsError res
         then (None, Some (New ("elasticsearch info error: " ++ ResponseString res)))
         else (Some {| client := native; EnableTrace := Options.EnableTrace opts |},
               None)
       end,
       {| clock := clock w
                   + fst (transport cfg (clock w)
                            (Some (clock w + Options.DialTimeout opts))
                            (dispatched w) InfoRequest);
          events := events w ++ [ClientBuilt cfg; Dispatched InfoRequest] |})
    end.
Proof.
  intros Hne. unfold NewElasticsearch.
  destruct (Options.Addresses opts) as [|addr rest] eqn:Haddrs; [done|].
  simpl length. simpl Nat.eqb. cbv iota zeta.
  unfold NewClient, WithTimeout, bind, ret, emit, Do, answer. simpl.
  destruct (refuses (nativeConfig opts)) as [err|]; simpl; [done|].
  replace (dispatched {| clock := clock w;
                         events := events w ++ [ClientBuilt (nativeConfig opts)] |})
    with (dispatched w) by (unfold dispatched; simpl; rewrite omap_app; simpl;
                            by rewrite app_nil_r).
  rewrite <- app_assoc. simpl.
  destruct (snd (transport _ _ _ _ _)) as [err|res]; [done|].
  by destruct (IsError res).
Qed.

(** X16. NewElasticsearch returns either a client and no error, or no
    client and an error. It returns a client only when the options are not
    nil, hold an address, the native library accepts the configuration and
    the probe is answered with a status that IsError accepts; the client
    then holds that configuration and the trace flag of the options. *)
Theorem NewElasticsearch_client_or_error opts w :
  ((∃ c, fst (NewElasticsearch opts w) = (Some c, None))
   ∨ (∃ err, fst (NewElasticsearch opts w) = (None, Some err)))
  ∧ (∀ c, fst (fst (NewElasticsearch opts w)) = Some c ->
       ∃ o res,
         opts = Some o
         ∧ Options.Addresses o ≠ []
         ∧ refuses (nativeConfig o) = None
         ∧ answer {| transportConfig := nativeConfig o |}
             {| ctxDeadline := Some (clock w + Options.DialTimeout o);
                ctxSpan := None |} w InfoRequest = inr res
         ∧ IsError res = false
         ∧ c = {| client := {| transportConfig := nativeConfig o |};
                  EnableTrace := Options.EnableTrace o |}).
Proof.
  destruct opts as [o|]; [|split; [right; by eexists|done]].
  destruct (decide (Options.Addresses o = [])) as [Hempty|Hne].
  { unfold NewElasticsearch. rewrite Hempty. split; [right; by eexists|done]. }
  rewrite (NewElasticsearch_run o w Hne). cbv zeta.
  destruct (refuses (nativeConfig o)) as [err|] eqn:Hrefuses.
  { split; [right; by eexists|done]. }
  cbn [fst snd].
  destruct (answer _ _ w InfoRequest) as [err|res] eqn:Hans.
  { split; [right; by eexists|done]. }
  destruct (IsError res) eqn:Herr.
  { split; [right; by eexists|done]. }
  split; [left; by eexists|].
  intros c [= <-]. by exists o, res.
Qed.


(** ** Messages of status errors *)













(** ** One log record for each decorated call *)

Lemma logged_onlyDispatches w w' : onlyDispatches w w' -> logged w' = logged w.
Proof.
  intros (reqs & _ & Hev). unfold logged. rewrite Hev, omap_app.
  rewrite <- (app_nil_r (omap _ (events w))) at 2. f_equal.
  clear. by induction reqs as [|req reqs IH].
Qed.

Lemma logged_entered en ctx attrs w : logged (snd (entered en ctx attrs w)) = logged w.
Proof.
  destruct en; [|done]. unfold entered, logged. simpl. rewrite omap_app. simpl.
  by rewrite app_nil_r.
Qed.

Lemma executeWithTrace_logged ctx operation index documentID en handler w :
  (∀ c v, onlyDispatches v (snd (handler c v))) ->
  let out := executeWithTrace ctx operation index documentID en handler w in
  logged (snd out)
  = (logged w
     ++ [match fst out with
         | Some err =>
           (levelError, "Elasticsearch operation failed",
            [zapString "operation" operation; zapString "index" index;
             zapString "document_id" documentID;
             zapDuration "duration" (clock (snd out) - clock w);
             zapError err])
         | None =>
           (levelInfo, "Elasticsearch operation success",
            [zapString "operation" operation; zapString "index" index;
             zapString "document_id" documentID;
             zapDuration "duration" (clock (snd out) - clock w)])
         end])%list.
Proof.
  intros Hsilent out. subst out.
  pose proof (logged_entered en ctx (operationAttrs operation index documentID) w)
    as Hentry.
  pose proof (Hsilent (fst (entered en ctx (operationAttrs operation index documentID) w))
                (snd (entered en ctx (operationAttrs operation index documentID) w)))
    as Hran.
  apply logged_onlyDispatches in Hran. rewrite Hentry in Hran. clear Hentry Hsilent.
  revert Hran. unfold executeWithTrace, entered, operationAttrs. run.
  destruct en; simpl;
    match goal with |- context [handler ?c ?v] => destruct (handler c v) as [[err|] w'] end;
    simpl; intros <-; unfold logged; simpl; rewrite ?omap_app; simpl;
    by rewrite ?app_nil_r.
Qed.

Lemma queryWithTrace_logged ctx operation index en handler w :
  (∀ c v, onlyDispatches v (snd (handler c v))) ->
  let out := queryWithTrace ctx operation index en handler w in
  logged (snd out)
  = (logged w
     ++ [match snd (fst out) with
         | Some err =>
           (levelError, "Elasticsearch operation failed",
            [zapString "operation" operation; zapString "index" index;
             zapDuration "duration" (clock (snd out) - clock w);
             zapError err])
         | None =>
           (levelInfo, "Elasticsearch operation success",
            [zapString "operation" operation; zapString "index" index;
             zapDuration "duration" (clock (snd out) - clock w)])
         end])%list.
Proof.
  intros Hsilent out. subst out.
  pose proof (logged_entered en ctx (queryAttrs operation index) w) as Hentry.
  pose proof (Hsilent (fst (entered en ctx (queryAttrs operation index) w))
                (snd (entered en ctx (queryAttrs operation index) w)))
    as Hran.
  apply logged_onlyDispatches in Hran. rewrite Hentry in Hran. clear Hentry Hsilent.
  revert Hran. unfold queryWithTrace, entered, queryAttrs. run.
  destruct en; simpl;
    match goal with |- context [handler ?c ?v] => destruct (handler c v) as [[result [err|]] w'] end;
    simpl; intros <-; unfold logged; simpl; rewrite ?omap_app; simpl;
    by rewrite ?app_nil_r.
Qed.

(** X20. Every call of Index, Get, Delete, Search or Bulk writes exactly
    one log record, with tracing on or off: at error level, with the error
    it returns, when it returns one, and at info level otherwise. The
    record names the operation, the index and (for Index, Delete and Bulk)
    the document, Bulk leaving index and document empty, and gives as
    duration the time the call took. *)
Theorem decorated_operations_log_once c ctx index_ documentID body text query w :
  (let out := Index c ctx index_ documentID body w in
   logged (snd out)
   = (logged w
      ++ [match fst out with
          | Some err =>
            (levelError, "Elasticsearch operation failed",
             [zapString "operation" "index"; zapString "index" index_;
              zapString "document_id" documentID;
              zapDuration "duration" (clock (snd out) - clock w); zapError err])
          | None =>
            (levelInfo, "Elasticsearch operation success",
             [zapString "operation" "index"; zapString "index" index_;
              zapString "document_id" documentID;
              zapDuration "duration" (clock (snd out) - clock w)])
          end])%list)
  ∧ (let out := Get c ctx index_ documentID w in
     logged (snd out)
     = (logged w
        ++ [match snd (fst out) with
            | Some err =>
              (levelError, "Elasticsearch operation failed",
               [zapString "operation" "get"; zapString "index" index_;
                zapDuration "duration" (clock (snd out) - clock w); zapError err])
            | None =>
              (levelInfo, "Elasticsearch operation success",
               [zapString "operation" "get"; zapString "index" index_;
                zapDuration "duration" (clock (snd out) - clock w)])
            end])%list)
  ∧ (let out := Delete c ctx index_ documentID w in
     logged (snd out)
     = (logged w
        ++ [match fst out with
            | Some err =>
              (levelError, "Elasticsearch operation failed",
               [zapString "operation" "delete"; zapString "index" index_;
                zapString "document_id" documentID;
                zapDuration "duration" (clock (snd out) - clock w); zapError err])
            | None =>
              (levelInfo, "Elasticsearch operation success",
               [zapString "operation" "delete"; zapString "index" index_;
                zapString "document_id" documentID;
                zapDuration "duration" (clock (snd out) - clock w)])
            end])%list)
  ∧ (let out := Search c ctx index_ query w in
     logged (snd out)
     = (logged w
        ++ [match snd (fst out) with
            | Some err =>
              (levelError, "Elasticsearch operation failed",
               [zapString "operation" "search"; zapString "index" index_;
                zapDuration "duration" (clock (snd out) - clock w); zapError err])
            | None =>
              (levelInfo, "Elasticsearch operation success",
               [zapString "operation" "search"; zapString "index" index_;
                zapDuration "duration" (clock (snd out) - clock w)])
            end])%list)
  ∧ (let out := Bulk c ctx text w in
     logged (snd out)
     = (logged w
        ++ [match fst out with
            | Some err =>
              (levelError, "Elasticsearch operation failed",
               [zapString "operation" "bulk"; zapString "index" "";
                zapString "document_id" "";
                zapDuration "duration" (clock (snd out) - clock w); zapError err])
            | None =>
              (levelInfo, "Elasticsearch operation success",
               [zapString "operation" "bulk"; zapString "index" "";
                zapString "document_id" "";
                zapDuration "duration" (clock (snd out) - clock w)])
            end])%list).
Proof.
  split_and!.
  - apply executeWithTrace_logged. intros; apply index_silent.
  - apply queryWithTrace_logged. intros; apply get_silent.
  - apply executeWithTrace_logged. intros; apply delete_silent.
  - apply queryWithTrace_logged. intros; apply executeQueryRequest_silent.
  - apply executeWithTrace_logged. intros; apply bulk_silent.
Qed.

End Client.
Arguments KeyValue float64 : clear implicits.
Arguments Event float64 : clear implicits.
Arguments World float64 : clear implicits.
Arguments M float64 A : clear implicits.

(** ** Configuration translation *)

Section ConfigurationFacts.
Context {pkgDuration : Type} (Duration : pkgDuration -> Z).
Implicit Types (c : Config.t pkgDuration) (addrs : list string).

Lemma rangeAddresses_clean i addrs :
  "" ∉ addrs -> rangeAddresses i addrs = None.
Proof.
  revert i. induction addrs as [|addr rest IH]; intros i Hclean; simpl.
  - reflexivity.
  - apply not_elem_of_cons in Hclean as [Hne Hrest].
    destruct (decide (addr = "")) as [->|_]; [done|]. by apply IH.
Qed.

Lemma rangeAddresses_first i addrs :
  "" ∈ addrs ->
  ∃ j, addrs !! j = Some "" ∧ (∀ k, (k < j)%nat -> addrs !! k ≠ Some "") ∧
       rangeAddresses i addrs =
         Some (New ("elasticsearch addresses[" ++ itoa (i + j) ++ "] cannot be empty")).
Proof.
  revert i. induction addrs as [|addr rest IH]; intros i Hin.
  - by apply elem_of_nil in Hin.
  - simpl. destruct (decide (addr = "")) as [->|Hne].
    + exists 0%nat. rewrite Nat.add_0_r. split_and!; [done| lia |done].
    + apply elem_of_cons in Hin as [Heq|Hin]; [congruence|].
      destruct (IH (S i) Hin) as (j & Hj & Hmin & Hres).
      exists (S j). split_and!.
      * done.
      * intros [|k] Hk; simpl; [congruence|]. apply Hmin. lia.
      * rewrite Hres. by rewrite Nat.add_succ_r.
Qed.

Lemma Validate_enabled c :
  Config.Enabled c = true -> Config.Addresses c ≠ [] ->
  Validate (Some c) = rangeAddresses 0 (Config.Addresses c).
Proof.
  intros Hen Hne. unfold Validate. rewrite Hen. simpl.
  by destruct (Config.Addresses c).
Qed.

(** C4. ToOptions fails on a nil Config, on a Config that is not enabled,
    and on an enabled Config whose address list is empty or holds an empty
    address (the error names the first such index). On an enabled Config
    with a non-empty list of non-empty addresses it succeeds: every field
    is carried over, and each of the three timeouts that is zero becomes 30
    seconds. ToOptions is a function of the Config alone: it has no access
    to the world, so it sends nothing. *)
Theorem ToOptions_contract c :
  ToOptions Duration None = (None, Some (New "elasticsearch config cannot be nil"))
  ∧ (Config.Enabled c = false ->
     ToOptions Duration (Some c) = (None, Some (New "elasticsearch is not enabled")))
  ∧ (Config.Enabled c = true -> Config.Addresses c = [] ->
     ToOptions Duration (Some c)
     = (None, Some (New "elasticsearch addresses cannot be empty")))
  ∧ (Config.Enabled c = true -> "" ∈ Config.Addresses c ->
     ∃ i, Config.Addresses c !! i = Some ""
          ∧ ToOptions Duration (Some c)
            = (None, Some (New ("elasticsearch addresses[" ++ itoa i
                                ++ "] cannot be empty"))))
  ∧ (Config.Enabled c = true -> Config.Addresses c ≠ [] ->
     "" ∉ Config.Addresses c ->
     ToOptions Duration (Some c)
     = (Some {| Options.Addresses := Config.Addresses c;
                Options.Username := Config.Username c;
                Options.Password := Config.Password c;
                Options.CloudID := Config.CloudID c;
                Options.APIKey := Config.APIKey c;
                Options.EnableTLS := Config.EnableTLS c;
                Options.CACert := Config.CACert c;
                Options.DialTimeout :=
                  if Duration (Config.DialTimeout c) =? 0 then 30000000000
                  else Duration (Config.DialTimeout c);
                Options.ReadTimeout :=
                  if Duration (Config.ReadTimeout c) =? 0 then 30000000000
                  else Duration (Config.ReadTimeout c);
                Options.WriteTimeout :=
                  if Duration (Config.WriteTimeout c) =? 0 then 30000000000
                  else Duration (Config.WriteTimeout c);
                Options.MaxRetries := Config.MaxRetries c;
                Options.EnableTrace := Config.EnableTrace c |}, None)).
Proof.
  split_and!.
  - reflexivity.
  - intros Hen. unfold ToOptions, Validate. by rewrite Hen.
  - intros Hen Hempty. unfold ToOptions, Validate. by rewrite Hen, Hempty.
  - intros Hen Hin.
    destruct (rangeAddresses_first 0 _ Hin) as (i & Hi & _ & Hres).
    exists i. split; [done|]. unfold ToOptions.
    rewrite Validate_enabled, Hres; [done..|].
    intros Hempty. rewrite Hempty in Hin. by apply elem_of_nil in Hin.
  - intros Hen Hne Hclean. unfold ToOptions.
    rewrite Validate_enabled, rangeAddresses_clean, Hen by done. reflexivity.
Qed.

(** ** More on validation and translation *)

Lemma rangeAddresses_None i addrs :
  rangeAddresses i addrs = None -> "" ∉ addrs.
Proof.
  intros Hnone Hin.
  destruct (rangeAddresses_first i addrs Hin) as (j & _ & _ & Hsome). congruence.
Qed.

(** X1. Validate accepts exactly the non-nil configurations that are
    either disabled (whatever their addresses) or have a non-empty list
    of non-empty addresses. *)
Theorem Validate_passes_iff (config : option (Config.t pkgDuration)) :
  Validate config = None
  ↔ ∃ c, config = Some c
         ∧ (Config.Enabled c = false
            ∨ (Config.Addresses c ≠ [] ∧ "" ∉ Config.Addresses c)).
Proof.
  split.
  - destruct config as [c|]; [|discriminate]. intros Hv. exists c. split; [done|].
    unfold Validate in Hv. destruct (Config.Enabled c); [right|by left].
    simpl in Hv. destruct (Config.Addresses c) as [|addr rest] eqn:Haddrs;
      [discriminate|].
    split; [done|]. by apply (rangeAddresses_None 0).
  - intros (c & -> & [Hoff|[Hne Hclean]]).
    + unfold Validate. by rewrite Hoff.
    + unfold Validate. destruct (Config.Enabled c); [|done]. simpl.
      destruct (Config.Addresses c) as [|addr rest] eqn:Haddrs; [done|].
      by apply rangeAddresses_clean.
Qed.

(** X2. On an enabled configuration Validate reports the first empty
    address: the index in the message is the least one holding an empty
    string. *)
Theorem Validate_names_first_empty c i :
  Config.Enabled c = true ->
  Config.Addresses c !! i = Some "" ->
  (∀ k, (k < i)%nat -> Config.Addresses c !! k ≠ Some "") ->
  Validate (Some c)
  = Some (New ("elasticsearch addresses[" ++ itoa i ++ "] cannot be empty")).
Proof.
  intros Hen Hi Hleast.
  assert ("" ∈ Config.Addresses c) as Hin by (eapply list_elem_of_lookup_2; eauto).
  destruct (rangeAddresses_first 0 _ Hin) as (j & Hj & Hmin & Hres).
  assert (i = j) as ->.
  { destruct (Nat.lt_trichotomy i j) as [Hlt|[Heq|Hgt]]; [|done|].
    - by destruct (Hmin i Hlt).
    - by destruct (Hleast j Hgt). }
  rewrite Validate_enabled, Hres; [done..|].
  intros Hempty. rewrite Hempty in Hin. by apply elem_of_nil in Hin.
Qed.

(** X3. ToOptions returns either options and no error, or no options and
    an error, never both and never neither. It returns options exactly
    for an enabled configuration with a non-empty list of non-empty
    addresses. *)
Theorem ToOptions_one_result (config : option (Config.t pkgDuration)) :
  (∃ o c, ToOptions Duration config = (Some o, None)
          ∧ config = Some c
          ∧ Config.Enabled c = true
          ∧ Config.Addresses c ≠ []
          ∧ "" ∉ Config.Addresses c)
  ∨ (∃ err, ToOptions Duration config = (None, Some err)
            ∧ (config = None
               ∨ ∃ c, config = Some c
                      ∧ (Config.Enabled c = false
                         ∨ Config.Addresses c = []
                         ∨ "" ∈ Config.Addresses c))).
Proof.
  destruct config as [c|].
  - destruct (Config.Enabled c) eqn:Hen.
    + destruct (Config.Addresses c) as [|addr rest] eqn:Haddrs.
      * right. exists (New "elasticsearch addresses cannot be empty").
        split; [|right; exists c; auto].
        unfold ToOptions, Validate. by rewrite Hen, Haddrs.
      * destruct (decide ("" ∈ Config.Addresses c)) as [Hin|Hclean].
        -- right. destruct (rangeAddresses_first 0 _ Hin) as (i & _ & _ & Hres).
           eexists. split; [|right; exists c; auto].
           unfold ToOptions. rewrite Validate_enabled, Hres; [done..|].
           by rewrite Haddrs.
        -- left. eexists _, c. split; [|by rewrite Haddrs in *].
           unfold ToOptions.
           rewrite Validate_enabled, rangeAddresses_clean, Hen; [done..|].
           by rewrite Haddrs.
    + right. exists (New "elasticsearch is not enabled").
      split; [|right; exists c; auto].
      unfold ToOptions, Validate. by rewrite Hen.
  - right. eexists. split; [reflexivity|]. by left.
Qed.

(** X4. The timeouts of the options ToOptions returns are never zero:
    each is the value its getter reads from the configuration when that
    value is not zero (a negative one included), and 30 seconds otherwise. *)
Theorem ToOptions_timeouts c o err :
  ToOptions Duration (Some c) = (Some o, err) ->
  Options.DialTimeout o ≠ 0
  ∧ Options.ReadTimeout o ≠ 0
  ∧ Options.WriteTimeout o ≠ 0
  ∧ Options.DialTimeout o
    = (if DialTimeoutDuration Duration c =? 0 then 30 * Second
       else DialTimeoutDuration Duration c)
  ∧ Options.ReadTimeout o
    = (if ReadTimeoutDuration Duration c =? 0 then 30 * Second
       else ReadTimeoutDuration Duration c)
  ∧ Options.WriteTimeout o
    = (if WriteTimeoutDuration Duration c =? 0 then 30 * Second
       else WriteTimeoutDuration Duration c).
Proof.
  unfold ToOptions, DialTimeoutDuration, ReadTimeoutDuration, WriteTimeoutDuration.
  destruct (Validate (Some c)); [discriminate|].
  destruct (Config.Enabled c); [|discriminate]. simpl. intros [= <- _]. simpl.
  unfold orFallback, Second.
  repeat split; repeat case_match; try done; by apply Z.eqb_neq.
Qed.

Lemma ToOptions_Some_inv (config : option (Config.t pkgDuration)) o err :
  ToOptions Duration config = (Some o, err) ->
  ∃ c, config = Some c
       ∧ Config.Enabled c = true
       ∧ Config.Addresses c ≠ []
       ∧ Options.Addresses o = Config.Addresses c
       ∧ Options.EnableTrace o = Config.EnableTrace c
       ∧ Options.DialTimeout o = orFallback (Duration (Config.DialTimeout c)).
Proof.
  destruct config as [c|]; [|discriminate]. unfold ToOptions.
  destruct (Validate (Some c)) eqn:Hv; [discriminate|].
  destruct (Config.Enabled c) eqn:Hen; [|discriminate]. simpl. intros [= <- _].
  exists c. split_and!; try done.
  intros Hempty. unfold Validate in Hv. by rewrite Hen, Hempty in Hv.
Qed.

End ConfigurationFacts.

(** ** From a configuration to a client *)

Section Pipeline.
Context {pkgDuration : Type} (Duration : pkgDuration -> Z).
Context (float64 : Type).
Context (transport :
  ESConfig.t -> Z -> option Z -> list Request -> Request -> Z * (error + Response)).
Context (refuses : ESConfig.t -> option error).
Context (ResponseString : Response -> string).

(** X19. Options that ToOptions returns always pass the two checks of
    NewElasticsearch: one native client is built, on the addresses of the
    configuration; the dial timeout that bounds the probe is not zero;
    and a client that comes back carries the trace flag and the addresses
    of the configuration. *)
Theorem translated_options_reach_the_client
    (config : option (Config.t pkgDuration)) o err w :
  ToOptions Duration config = (Some o, err) ->
  ∃ c, config = Some c
       ∧ built float64
           (snd (NewElasticsearch float64 transport refuses ResponseString (Some o) w))
         = (built float64 w ++ [nativeConfig o])%list
       ∧ ESConfig.Addresses (nativeConfig o) = Config.Addresses c
       ∧ Options.DialTimeout o ≠ 0
       ∧ (∀ es,
            fst (fst (NewElasticsearch float64 transport refuses ResponseString
                        (Some o) w)) = Some es ->
            EnableTrace es = Config.EnableTrace c
            ∧ ESConfig.Addresses (transportConfig (client es))
              = Config.Addresses c).
Proof.
  intros Hto.
  destruct (ToOptions_Some_inv Duration config o err Hto)
    as (c & -> & Hen & Hne & Haddrs & Htrace & Hdial).
  assert (Options.Addresses o ≠ []) as Hne' by by rewrite Haddrs.
  exists c. split; [done|].
  destruct (NewElasticsearch_built float64 transport refuses ResponseString o w Hne')
    as [Hbuilt _].
  split; [exact Hbuilt|]. split.
  { rewrite <- Haddrs. apply nativeConfig_fields. }
  split.
  { rewrite Hdial. unfold orFallback, Second. case_match; [done|]. by apply Z.eqb_neq. }
  intros es.
  rewrite (NewElasticsearch_run float64 transport refuses ResponseString o w Hne').
  cbv zeta. destruct (refuses (nativeConfig o)); [done|]. cbn [fst snd].
  destruct (answer _ _ _ _ _ _) as [e|res] eqn:Hans; [done|].
  destruct (IsError res); [done|]. intros [= <-]. simpl. split; [done|].
  rewrite <- Haddrs. apply nativeConfig_fields.
Qed.
End Pipeline.

(** * The properties on the stub cluster *)

Lemma ExistsIndex_by_status_witness :
  fst (ExistsIndex Z (Stub.cluster 404 "") Stub.render Stub.traced Background "idx"
         (Build_World Z 0 []))
  = (false, None).
Proof.
  refine (proj2 (proj1 (ExistsIndex_by_status Z (Stub.cluster 404 "") Stub.render
                          Stub.traced Background "idx" (Build_World Z 0 [])
                          {| StatusCode := 404; ResponseBody := "" |} _) _));
    reflexivity.
Defined.

Lemma payload_normalization_witness :
  fst (Index Z id (Stub.cluster 200 "") Stub.render Stub.marshal Stub.traced
         Background "idx" "1" (VOther 1) (Build_World Z 0 []))
  = Some (Wrap "failed to marshal document: " (New "json: unsupported type"))
  ∧ network Z (snd (Index Z id (Stub.cluster 200 "") Stub.render Stub.marshal
                      Stub.traced Background "idx" "1" (VOther 1)
                      (Build_World Z 0 [])))
    = network Z (Build_World Z 0 []).
Proof.
  pose proof (payload_normalization Z id (Stub.cluster 200 "") Stub.render
                Stub.marshal Stub.traced Background "idx" "1" (Build_World Z 0 [])
                "" [] (VOther 1) eq_refl) as H.
  destruct H as (_ & _ & _ & _ & H & _). simpl in H.
  destruct H as (Hres & Hnet & _). exact (conj Hres Hnet).
Defined.


Lemma ToOptions_contract_witness :
  ToOptions (pkgDuration:=Z) id
    (Some (Config.mk true ["http://localhost:9200"] "elastic" "secret" "" ""
             false "" 0 5000000000 0 0 true))
  = (Some (Options.mk ["http://localhost:9200"] "elastic" "secret" "" ""
             false "" 30000000000 5000000000 30000000000 0 true), None).
Proof.
  refine (proj2 (proj2 (proj2 (proj2
            (ToOptions_contract (pkgDuration:=Z) id
               (Config.mk true ["http://localhost:9200"] "elastic" "secret" "" ""
                  false "" 0 5000000000 0 0 true)))))
            eq_refl _ _).
  - discriminate.
  - intros Hin. apply list_elem_of_singleton in Hin. discriminate Hin.
Defined.

Lemma NewElasticsearch_rejects_early_witness :
  ∃ err,
    NewElasticsearch Z (Stub.cluster 200 "") Stub.accepts Stub.render
      (Some (Options.mk [] "" "" "" "" false "" 0 0 0 0 false)) (Build_World Z 0 [])
    = ((None, Some err), Build_World Z 0 [])
    ∧ Contains (Error err) "cannot be empty" = true.
Proof.
  exact (proj2 (NewElasticsearch_rejects_early Z (Stub.cluster 200 "") Stub.accepts
                  Stub.render (Build_World Z 0 []))
               (Options.mk [] "" "" "" "" false "" 0 0 0 0 false) eq_refl).
Defined.

Lemma decorators_keep_the_outcome_witness :
  fst (executeWithTrace Z id Background "index" "idx" "1" true
         (fun _ w => (Some (New "connection refused"), w)) (Build_World Z 0 []))
  = fst (executeWithTrace Z id Background "index" "idx" "1" false
           (fun _ w => (Some (New "connection refused"), w)) (Build_World Z 0 [])).
Proof.
  exact (proj1 (proj2 (proj2
           (decorators_keep_the_outcome Z id (Stub.cluster 200 "") Stub.render
              Stub.marshal Stub.decode Background "index" "idx" "1"
              (fun _ w => (Some (New "connection refused"), w))
              (fun _ w => (None, None, w)) (Build_World Z 0 []))))
         eq_refl).
Defined.

Lemma native_client_configuration_witness :
  ∃ cfg,
    built Z (snd (NewElasticsearch Z (Stub.cluster 200 "") Stub.accepts Stub.render
                    (Some (Options.mk ["http://localhost:9200"] "elastic" "secret"
                             "cloud" "key" false "" 0 0 0 0 false))
                    (Build_World Z 0 [])))
    = [cfg]
    ∧ ESConfig.Username cfg = "elastic"
    ∧ ESConfig.APIKey cfg = ""
    ∧ ESConfig.CloudID cfg = "cloud"
    ∧ ESConfig.MaxRetries cfg = 3.
Proof.
  destruct (native_client_configuration Z (Stub.cluster 200 "") Stub.accepts
              Stub.render
              (Options.mk ["http://localhost:9200"] "elastic" "secret"
                 "cloud" "key" false "" 0 0 0 0 false)
              (Build_World Z 0 []))
    as (cfg & Hbuilt & _ & _ & Hbasic & _ & Hcloud & _ & Hretries).
  - discriminate.
  - exists cfg. split; [exact Hbuilt|].
    destruct Hbasic as (Huser & _ & Hkey); [discriminate..|].
    split; [exact Huser|]. split; [exact Hkey|]. split; [exact Hcloud|].
    apply Hretries. discriminate.
Defined.

Lemma Count_reads_count_field_witness :
  fst (Count Z id (Stub.cluster 200 "") Stub.render Stub.marshal Stub.decode
         Stub.traced Background "idx" None (Build_World Z 0 []))
  = (3, None).
Proof.
  refine (proj1 (Count_reads_count_field Z id (Stub.cluster 200 "") Stub.render
                   Stub.marshal Stub.decode Stub.traced Background "idx" None
                   (Build_World Z 0 [])
                   {| StatusCode := 200; ResponseBody := "" |}
                   (Some {[ "count" := VFloat64 3 ]}) _ eq_refl eq_refl)
                {[ "count" := VFloat64 3 ]} 3 eq_refl _).
  - exists (CountRequest ["idx"] None). split; reflexivity.
  - reflexivity.
Defined.

Lemma no_result_map_with_error_witness :
  fst (fst (Get Z id (Stub.cluster 200 "garbled") Stub.render Stub.decode
              Stub.traced Background "idx" "1" (Build_World Z 0 [])))
  = None.
Proof.
  apply (proj1 (no_result_map_with_error Z id (Stub.cluster 200 "garbled")
                  Stub.render Stub.marshal Stub.decode Stub.traced Background
                  "idx" "1" None None (Build_World Z 0 []))).
  discriminate.
Defined.

(** The end-to-end scenario: the stub answers 200 to an Index call, then 500. *)
Example Index_created :
  fst (Index Z id (Stub.cluster 200 "created") Stub.render Stub.marshal Stub.traced
         Background "idx" "1" (VMap (Some {[ "title" := VString "x" ]}))
         (Build_World Z 0 []))
  = None.
Proof. reflexivity. Qed.

Example Index_server_error :
  fst (Index Z id (Stub.cluster 500 "internal error") Stub.render Stub.marshal
         Stub.traced Background "idx" "1" (VMap (Some {[ "title" := VString "x" ]}))
         (Build_World Z 0 []))
  = Some (New "elasticsearch index error: internal error").
Proof. reflexivity. Qed.

Example Index_traced_events :
  length (events Z (snd (Index Z id (Stub.cluster 200 "created") Stub.render
                           Stub.marshal Stub.traced Background "idx" "1"
                           (VString "{}") (Build_World Z 0 []))))
  = 6%nat.
Proof. reflexivity. Qed.

(** * The further properties on examples *)

Lemma Validate_names_first_empty_witness :
  Validate (Some Sample.holes)
  = Some (New "elasticsearch addresses[1] cannot be empty").
Proof.
  refine (Validate_names_first_empty (pkgDuration:=Z) Sample.holes 1 eq_refl eq_refl _).
  intros k Hk. assert (k = 0%nat) as -> by lia. discriminate.
Defined.

Lemma ToOptions_timeouts_witness :
  Options.DialTimeout Sample.options = 30 * Second
  ∧ Options.ReadTimeout Sample.options = -5.
Proof.
  pose proof (ToOptions_timeouts (pkgDuration:=Z) id Sample.config Sample.options
                None eq_refl) as (_ & _ & _ & Hdial & Hread & _).
  exact (conj Hdial Hread).
Defined.

Lemma transport_failure_is_wrapped_witness :
  fst (Index Z id Fault.unreachable Stub.render Stub.marshal Stub.traced
         Background "idx" "1" (VString "{}") (Build_World Z 0 []))
  = Some (Wrap "failed to index document: " (New "connection refused")).
Proof.
  apply (proj1 (transport_failure_is_wrapped Z id id Fault.unreachable Stub.render
                  Stub.marshal Stub.decode Stub.traced Background "idx" "1"
                  (VString "{}") "" None None (Build_World Z 0 [])
                  (New "connection refused"))).
  exists (IndexRequest "idx" "1" "{}" "true"). split; reflexivity.
Defined.

Lemma accepted_response_is_decoded_witness :
  fst (Get Z id (Stub.cluster 200 "null") Stub.render Fault.null Stub.traced
         Background "idx" "1" (Build_World Z 0 []))
  = (None, None).
Proof.
  refine (proj1 (accepted_response_is_decoded Z id (Stub.cluster 200 "null")
                   Stub.render Stub.marshal Fault.null Stub.traced Background
                   "idx" "1" None None (Build_World Z 0 [])
                   {| StatusCode := 200; ResponseBody := "null" |} eq_refl) _).
  exists (GetRequest "idx" "1"). split; reflexivity.
Defined.



Lemma translated_options_reach_the_client_witness :
  built Z (snd (NewElasticsearch Z (Stub.cluster 200 "") Stub.accepts Stub.render
                  (Some Sample.options) (Build_World Z 0 [])))
  = [nativeConfig Sample.options].
Proof.
  destruct (translated_options_reach_the_client (pkgDuration:=Z) id Z
              (Stub.cluster 200 "") Stub.accepts Stub.render
              (Some Sample.config) Sample.options None (Build_World Z 0 []) eq_refl)
    as (c & _ & Hbuilt & _).
  exact Hbuilt.
Defined.
